(** * Primitive Art Generator (app.py): a shallow embedding

    The program is a Streamlit front-end around two external command-line
    tools.  Its own logic is glue: an environment check, three working
    directories, the construction of two argument lists, and a
    try/except/finally block around the calls.

    The embedding keeps that shape.  The file system is a finite map from
    path strings to nodes; an effectful Python call is a function from the
    file system to a result (a value or a raised exception), the new file
    system and the list of calls it made; the external tools and
    [shutil.which] are fields of a [World] record, so every statement holds
    for whatever the tools do. *)

From Stdlib Require Import ZArith String Ascii List Bool Lia.
From stdpp Require Import base option list gmap strings pretty fin_maps.

Open Scope string_scope.
Open Scope Z_scope.

(** ** Python strings *)

Module PyStr.

(** [bool(s)] for a string. *)
Definition truthy (s : string) : bool :=
  match s with
  | EmptyString => false
  | String _ _ => true
  end.

(** [a or b] on strings. *)
Definition py_or (a b : string) : string := if truthy a then a else b.

(** [s.lstrip(c)] for a one-character argument: every leading [c] goes. *)
Fixpoint lstrip (c : ascii) (s : string) : string :=
  match s with
  | String a s' => if Ascii.eqb a c then lstrip c s' else s
  | EmptyString => EmptyString
  end.

(** [s.startswith(p)]. *)
Definition startswith (p s : string) : bool := String.prefix p s.

(** [s.endswith(suf)]. *)
Definition endswith (suf s : string) : bool :=
  let n := String.length s in
  let k := String.length suf in
  (k <=? n)%nat && String.eqb (String.substring (n - k) k s) suf.

(** [" ".join(l)] and friends. *)
Definition join (sep : string) (l : list string) : string :=
  String.concat sep l.

(** [str(n)] for an [int]. *)
Definition str_int (n : Z) : string := pretty n.

(** Split at the last occurrence of [c]: [s.rpartition(c)] without the
    separator, [None] when [c] does not occur. *)
Fixpoint split_last (c : ascii) (s : string) : option (string * string) :=
  match s with
  | EmptyString => None
  | String a s' =>
      match split_last c s' with
      | Some (l, r) => Some (String a l, r)
      | None => if Ascii.eqb a c then Some (EmptyString, s') else None
      end
  end.

Definition LF : ascii := "010"%char.
Definition CR : ascii := "013"%char.

(** [s.splitlines()], for the line boundaries LF, CR and CR LF. *)
Fixpoint splitlines_go (s cur : string) : list string :=
  match s with
  | EmptyString => if truthy cur then [cur] else []
  | String c s' =>
      if Ascii.eqb c CR then
        match s' with
        | String c' s'' =>
            if Ascii.eqb c' LF then cur :: splitlines_go s'' EmptyString
            else cur :: splitlines_go s' EmptyString
        | EmptyString => [cur]
        end
      else if Ascii.eqb c LF then cur :: splitlines_go s' EmptyString
      else splitlines_go s' (cur ++ String c EmptyString)
  end.

Definition splitlines (s : string) : list string := splitlines_go s EmptyString.

(** [s in t]: substring test. *)
Fixpoint contains (sub s : string) : bool :=
  String.prefix sub s ||
  match s with
  | EmptyString => false
  | String _ s' => contains sub s'
  end.

Definition is_space (c : ascii) : bool :=
  Ascii.eqb c " "%char || Ascii.eqb c "009"%char || Ascii.eqb c LF || Ascii.eqb c CR.

(** [s.split()[0]]: the first whitespace-separated word, [None] when
    there is none (Python raises IndexError). *)
Fixpoint take_word (s : string) : string :=
  match s with
  | EmptyString => EmptyString
  | String c s' => if is_space c then EmptyString else String c (take_word s')
  end.

Fixpoint first_word (s : string) : option string :=
  match s with
  | EmptyString => None
  | String c s' => if is_space c then first_word s' else Some (take_word s)
  end.

Definition lower_ascii (c : ascii) : ascii :=
  let n := nat_of_ascii c in
  if ((65 <=? n) && (n <=? 90))%nat then ascii_of_nat (n + 32) else c.

(** [s.lower()] on the ASCII letters. *)
Fixpoint lower (s : string) : string :=
  match s with
  | EmptyString => EmptyString
  | String c s' => String (lower_ascii c) (lower s')
  end.

End PyStr.

(** ** Exceptions *)

(** The exception classes the program can meet.  [StopException] is what
    [st.stop()] raises; it derives from [BaseException], so an
    [except Exception] clause does not catch it.  The others carry the text
    that [str(e)] gives. *)
Inductive exn : Type :=
| CalledProcessError (returncode : Z) (cmd : list string) (stderr : option string)
| FileNotFoundError (msg : string)
| FileExistsError (msg : string)
| IsADirectoryError (msg : string)
| AttributeError (msg : string)
| IndexError (msg : string)
| MediaFileStorageError (msg : string)
| StopException.

(** [isinstance(e, subprocess.CalledProcessError)]. *)
Definition is_CalledProcessError (e : exn) : bool :=
  match e with
  | CalledProcessError _ _ _ => true
  | _ => false
  end.

(** [isinstance(e, Exception)]. *)
Definition is_Exception (e : exn) : bool :=
  match e with
  | StopException => false
  | _ => true
  end.

(** [str(e)]. *)
Definition str_exn (e : exn) : string :=
  match e with
  | CalledProcessError rc cmd _ =>
      "Command '" ++ PyStr.join " " cmd ++ "' returned non-zero exit status "
        ++ PyStr.str_int rc ++ "."
  | FileNotFoundError m | FileExistsError m | IsADirectoryError m
  | AttributeError m | IndexError m | MediaFileStorageError m => m
  | StopException => ""
  end.

Inductive result (A : Type) : Type :=
| Ok (a : A)
| Raise (e : exn).
Arguments Ok {A} a.
Arguments Raise {A} e.

(** ** The file system *)

Inductive node : Type :=
| Dir
| File (content : list Byte.byte).

(** A path string names at most one node. *)
Abbreviation FS := (gmap string node).

Module Path.

Section WithSeparator.

(** The separator [str(Path(..))] uses: [/], or [\] under [os.name == "nt"]. *)
Variable sep : ascii.

(** [str(d / n)] for a directory path [d] and a name [n]: an empty [n]
    leaves [d], an [n] that starts at the root replaces [d].  (Names are
    taken as pathlib would print them: no doubled or trailing
    separator.) *)
Definition joinpath (d n : string) : string :=
  match n with
  | EmptyString => d
  | String a _ => if Ascii.eqb a sep then n else d ++ String sep n
  end.

(** [Path(p).name]: the last component. *)
Definition name (p : string) : string :=
  match PyStr.split_last sep p with
  | Some (_, r) => r
  | None => p
  end.

(** [Path(p).stem]: the name without its last suffix; a dot that starts
    or ends the name is no suffix (pathlib up to Python 3.13). *)
Definition stem (p : string) : string :=
  let nm := name p in
  match PyStr.split_last "."%char nm with
  | Some (l, r) => if PyStr.truthy l && PyStr.truthy r then l else nm
  | None => nm
  end.

Definition is_dir (fs : FS) (p : string) : bool :=
  match fs !! p with
  | Some Dir => true
  | _ => false
  end.

Definition is_file (fs : FS) (p : string) : bool :=
  match fs !! p with
  | Some (File _) => true
  | _ => false
  end.

(** The directory holding [p] exists.  A path of one component lies in
    the current directory, which always exists, like the root. *)
Definition parent_is_dir (fs : FS) (p : string) : bool :=
  match PyStr.split_last sep p with
  | None => true
  | Some (EmptyString, _) => true
  | Some (d, _) => is_dir fs d
  end.

(** [p] lies somewhere below the directory [d]. *)
Definition below (d p : string) : bool := String.prefix (d ++ String sep EmptyString) p.

(** [p] is an entry of the directory [d] whose name matches [*.png]
    (letter case counts, as on POSIX; names that start with a dot match
    too). *)
Definition png_entry (d p : string) : bool :=
  match PyStr.split_last sep p with
  | Some (d', n) => String.eqb d' d && PyStr.endswith ".png" n
  | None => false
  end.

(** [list(d.glob("*.png"))]; nothing when [d] is no directory.  Python
    leaves the order to the operating system. *)
Definition glob_png (fs : FS) (d : string) : list string :=
  if is_dir fs d
  then List.filter (png_entry d) (map fst (map_to_list fs))
  else [].

(** What [shutil.rmtree(d, ignore_errors=True)] leaves: without [d] and
    everything below it when [d] is a directory; unchanged otherwise (the
    error is swallowed). *)
Definition rmtree_fs (d : string) (fs : FS) : FS :=
  if is_dir fs d
  then filter (fun kv => negb (String.eqb (fst kv) d) && negb (below d (fst kv)) = true) fs
  else fs.

End WithSeparator.

End Path.

(** ** The world outside the program *)

(** What a call of [subprocess.run] meets: no such executable, or a process
    that ran to its exit status, wrote to its two streams and left the file
    system in some state. *)
Inductive proc_outcome : Type :=
| NotFound
| Exited (returncode : Z) (stdout stderr : string) (fs' : FS).

Record World : Type := {
  (** [os.name] *)
  os_name : string;
  (** [shutil.which] *)
  which : string -> option string;
  (** an external command run on a file system *)
  exec_tool : list string -> FS -> proc_outcome
}.

Definition is_nt (w : World) : bool := String.eqb (os_name w) "nt".

Definition path_sep (w : World) : ascii := if is_nt w then "\"%char else "/"%char.

(** The truth value of what [shutil.which] returns. *)
Definition found (w : World) (x : string) : bool :=
  match which w x with
  | Some p => PyStr.truthy p
  | None => false
  end.

(** ** The form *)

(** The four entries of the output format select box. *)
Inductive OutputFormat : Type := PNG | JPG | SVG | GIF.

Definition format_label (f : OutputFormat) : string :=
  match f with
  | PNG => "PNG"
  | JPG => "JPG"
  | SVG => "SVG"
  | GIF => "GIF 🎬"
  end.

Record UploadedFile : Type := {
  uf_name : string;
  uf_buffer : list Byte.byte
}.

(** The widget values of one run of the script. *)
Record Form : Type := {
  uploaded_file : option UploadedFile;
  num_shapes : Z;
  mode : string;
  bg_color : string;
  alpha : Z;
  resize : Z;
  output_size : Z;
  rep : Z;
  nth : Z;
  workers : Z;
  output_format : OutputFormat;
  verbose : bool;
  very_verbose : bool;
  submitted : bool
}.

(** The [params] dictionary handed to [generate_artwork]. *)
Record Params : Type := {
  p_input_path : string;
  p_output_path : string;
  p_num_shapes : Z;
  p_mode : string;
  p_rep : Z;
  p_nth : Z;
  p_resize : Z;
  p_output_size : Z;
  p_alpha : Z;
  p_bg_color : string;
  p_workers : Z;
  p_verbose : bool;
  p_very_verbose : bool
}.

(** ** Calls and computations *)

Inductive slot : Type := InputPreview | OutputPreview.

(** The calls a run makes, in order.  [ERun] keeps the file system the
    command was started on. *)
Inductive event : Type :=
| EMkdir (p : string)
| EWrite (p : string) (data : list Byte.byte)
| ERead (p : string)
| EUnlink (p : string)
| ERmtree (p : string)
| ERun (cmd : list string) (before : FS)
| EError (msg : string)
| EImage (s : slot) (p : string)
| EDownload (mime : string) (data : list Byte.byte) (filename : string)
| ECode (text : string).

(** A computation takes the file system and gives its result, the file
    system it leaves and the calls it made. *)
Definition M (A : Type) : Type := FS -> result A * FS * list event.

Definition ret {A} (a : A) : M A := fun fs => (Ok a, fs, []).

Definition raise {A} (e : exn) : M A := fun fs => (Raise e, fs, []).

Definition bind {A B} (m : M A) (k : A -> M B) : M B := fun fs =>
  match m fs with
  | (Ok a, fs1, t1) =>
      match k a fs1 with
      | (r, fs2, t2) => (r, fs2, (t1 ++ t2)%list)
      end
  | (Raise e, fs1, t1) => (Raise e, fs1, t1)
  end.

Declare Scope py_scope.
Delimit Scope py_scope with py.
Notation "x <- m ;; k" := (bind m (fun x => k))
  (at level 100, m at next level, right associativity) : py_scope.
Notation "m ;; k" := (bind m (fun _ => k))
  (at level 100, right associativity) : py_scope.
Open Scope py_scope.

Definition emit (e : event) : M unit := fun fs => (Ok tt, fs, [e]).

(** [try: body / except CalledProcessError: h1 / except Exception: h2 /
    finally: fin].  The first clause whose class fits handles the
    exception; what a handler raises is not handled again; [fin] runs in
    every case, and an exception still pending after it goes on. *)
Definition try_except_finally {A}
    (body : M A) (h_cpe : exn -> M A) (h_exc : exn -> M A) (fin : M unit) : M A :=
  fun fs =>
    let '(r1, fs1, t1) := body fs in
    let '(r2, fs2, t2) :=
      match r1 with
      | Ok a => (Ok a, fs1, [])
      | Raise e =>
          if is_CalledProcessError e then h_cpe e fs1
          else if is_Exception e then h_exc e fs1
          else (Raise e, fs1, [])
      end in
    let '(r3, fs3, t3) := fin fs2 in
    (match r3 with
     | Ok _ => r2
     | Raise e => Raise e
     end, fs3, (t1 ++ t2 ++ t3)%list).

(** [for x in l: f x]. *)
Fixpoint for_each {A} (l : list A) (f : A -> M unit) : M unit :=
  match l with
  | [] => ret tt
  | x :: l' => f x ;; for_each l' f
  end.

(** ** The program *)

Definition INPUT_DIR : string := "temp_inputs".
Definition FRAME_DIR : string := "temp_frames".
Definition OUTPUT_DIR : string := "outputs".

(** What [subprocess.run] returns. *)
Record CompletedProcess : Type := {
  cp_returncode : Z;
  cp_stdout : option string;
  cp_stderr : option string
}.

Section Program.

Variable w : World.

Let sep : ascii := path_sep w.

(** *** Library calls *)

(** [Path.mkdir(exist_ok=True)]: an existing directory is accepted, an
    existing file is not. *)
Definition mkdir_exist_ok (p : string) : M unit := fun fs =>
  match fs !! p with
  | Some Dir => (Ok tt, fs, [EMkdir p])
  | Some (File _) =>
      (Raise (FileExistsError ("[Errno 17] File exists: '" ++ p ++ "'")), fs, [])
  | None =>
      if Path.parent_is_dir sep fs p
      then (Ok tt, <[p := Dir]> fs, [EMkdir p])
      else (Raise (FileNotFoundError ("[Errno 2] No such file or directory: '" ++ p ++ "'")),
            fs, [])
  end.

(** [with open(p, "wb") as f: f.write(data)]. *)
Definition write_file (p : string) (data : list Byte.byte) : M unit := fun fs =>
  match fs !! p with
  | Some Dir => (Raise (IsADirectoryError ("[Errno 21] Is a directory: '" ++ p ++ "'")), fs, [])
  | _ =>
      if Path.parent_is_dir sep fs p
      then (Ok tt, <[p := File data]> fs, [EWrite p data])
      else (Raise (FileNotFoundError ("[Errno 2] No such file or directory: '" ++ p ++ "'")),
            fs, [])
  end.

(** [with open(p, "rb") as f: f.read()]. *)
Definition read_file (p : string) : M (list Byte.byte) := fun fs =>
  match fs !! p with
  | Some (File data) => (Ok data, fs, [ERead p])
  | Some Dir => (Raise (IsADirectoryError ("[Errno 21] Is a directory: '" ++ p ++ "'")), fs, [])
  | None =>
      (Raise (FileNotFoundError ("[Errno 2] No such file or directory: '" ++ p ++ "'")), fs, [])
  end.

(** [Path.unlink()]. *)
Definition unlink (p : string) : M unit := fun fs =>
  match fs !! p with
  | Some (File _) => (Ok tt, delete p fs, [EUnlink p])
  | Some Dir => (Raise (IsADirectoryError ("[Errno 21] Is a directory: '" ++ p ++ "'")), fs, [])
  | None =>
      (Raise (FileNotFoundError ("[Errno 2] No such file or directory: '" ++ p ++ "'")), fs, [])
  end.

(** [shutil.rmtree(d, ignore_errors=True)]. *)
Definition rmtree_ignore_errors (d : string) : M unit := fun fs =>
  (Ok tt, Path.rmtree_fs sep d fs, [ERmtree d]).

(** [subprocess.run(cmd, check=.., capture_output=.., text=True)].  The
    streams are kept only under [capture_output]; a non-zero exit status
    raises only under [check]. *)
Definition subprocess_run (cmd : list string) (check capture_output : bool)
  : M CompletedProcess := fun fs =>
  match exec_tool w cmd fs with
  | NotFound =>
      (Raise (FileNotFoundError
                ("[Errno 2] No such file or directory: '" ++ hd "" cmd ++ "'")),
       fs, [ERun cmd fs])
  | Exited rc out err fs' =>
      let out' := if capture_output then Some out else None in
      let err' := if capture_output then Some err else None in
      if check && negb (rc =? 0)
      then (Raise (CalledProcessError rc cmd err'), fs', [ERun cmd fs])
      else (Ok {| cp_returncode := rc; cp_stdout := out'; cp_stderr := err' |},
            fs', [ERun cmd fs])
  end.

Definition st_error (msg : string) : M unit := emit (EError msg).

Definition st_stop : M unit := raise StopException.

(** [slot.image(str(p), ..)]: Streamlit loads the file. *)
Definition st_image (s : slot) (p : string) : M unit := fun fs =>
  if Path.is_file fs p
  then (Ok tt, fs, [EImage s p])
  else (Raise (MediaFileStorageError ("Error opening '" ++ p ++ "'")), fs, []).

(** *** Core functions *)

Definition setup_directories : M unit :=
  mkdir_exist_ok INPUT_DIR ;;
  mkdir_exist_ok FRAME_DIR ;;
  mkdir_exist_ok OUTPUT_DIR.

Definition validate_environment : bool :=
  forallb id
    [ existsb (found w) ["primitive"; "primitive.exe"];
      existsb (found w) ["magick"; "convert"] ].

(** The argument list of [generate_artwork]. *)
Definition artwork_cmd (params : Params) : list string :=
  ([ ("primitive" ++ (if is_nt w then ".exe" else ""))%string;
     "-i"; p_input_path params;
     "-o"; p_output_path params;
     "-n"; PyStr.str_int (p_num_shapes params);
     "-m"; p_mode params;
     "-rep"; PyStr.str_int (p_rep params);
     "-nth"; PyStr.str_int (p_nth params);
     "-r"; PyStr.str_int (p_resize params);
     "-s"; PyStr.str_int (p_output_size params);
     "-a"; PyStr.str_int (p_alpha params);
     "-bg"; PyStr.py_or (PyStr.lstrip "#"%char (p_bg_color params)) "ffffff";
     "-j"; PyStr.str_int (p_workers params) ]
   ++ (if p_verbose params then ["-v"] else [])
   ++ (if p_very_verbose params then ["-vv"] else []))%list.

Definition generate_artwork (params : Params) : M string :=
  let cmd := artwork_cmd params in
  _ <- subprocess_run cmd false true ;;
  ret (PyStr.join " " cmd).

(** The argument list of [create_gif]. *)
Definition gif_cmd (base_name : string) : list string :=
  [ (if found w "magick" then "magick" else "convert");
    "-delay"; "10";
    "-loop"; "0";
    Path.joinpath sep FRAME_DIR "*.png";
    Path.joinpath sep OUTPUT_DIR (base_name ++ "_animation.gif") ].

Definition create_gif (base_name : string) : M string :=
  let output_path := Path.joinpath sep OUTPUT_DIR (base_name ++ "_animation.gif") in
  _ <- subprocess_run (gif_cmd base_name) true false ;;
  ret output_path.

(** *** The processing logic *)

Definition is_gif (f : Form) : bool :=
  PyStr.startswith "GIF" (format_label (output_format f)).

Definition input_path_of (uf : UploadedFile) : string :=
  Path.joinpath sep INPUT_DIR (uf_name uf).

Definition base_name_of (uf : UploadedFile) : string := Path.stem sep (uf_name uf).

Definition output_path_of (uf : UploadedFile) : string :=
  Path.joinpath sep OUTPUT_DIR (base_name_of uf ++ "_result.png").

Definition make_params (f : Form) (uf : UploadedFile) : Params :=
  {| p_input_path := input_path_of uf;
     p_output_path :=
       if is_gif f then Path.joinpath sep FRAME_DIR "%04d.png" else output_path_of uf;
     p_num_shapes := num_shapes f;
     p_mode := mode f;
     p_rep := rep f;
     p_nth := nth f;
     p_resize := resize f;
     p_output_size := output_size f;
     p_alpha := alpha f;
     p_bg_color := bg_color f;
     p_workers := workers f;
     p_verbose := verbose f;
     p_very_verbose := very_verbose f |}.

(** [for frame in FRAME_DIR.glob("*.png"): frame.unlink()]. *)
Definition frame_cleanup : M unit := fun fs =>
  for_each (Path.glob_png sep fs FRAME_DIR) unlink fs.

(** The GIF branch: assemble, then drop the frames. *)
Definition gif_conversion (base_name : string) : M string :=
  final_output <- create_gif base_name ;;
  frame_cleanup ;;
  ret final_output.

(** The download link: its format word, the file's bytes (base64 in the
    page) and the file name offered. *)
Definition download_link (f : Form) (final_output : string) : M unit :=
  data <- read_file final_output ;;
  match PyStr.first_word (format_label (output_format f)) with
  | Some word => emit (EDownload (PyStr.lower word) data (Path.name sep final_output))
  | None => raise (IndexError "list index out of range")
  end.

(** The body of the [try]. *)
Definition try_body (f : Form) (uf : UploadedFile) : M unit :=
  let input_path := input_path_of uf in
  let base_name := base_name_of uf in
  let output_path := output_path_of uf in
  write_file input_path (uf_buffer uf) ;;
  st_image InputPreview input_path ;;
  command <- generate_artwork (make_params f uf) ;;
  final_output <- (if is_gif f then gif_conversion base_name else ret output_path) ;;
  st_image OutputPreview final_output ;;
  download_link f final_output ;;
  emit (ECode command).

(** [except subprocess.CalledProcessError as e]. *)
Definition on_called_process_error (e : exn) : M unit :=
  match e with
  | CalledProcessError _ _ (Some err) =>
      match last (PyStr.splitlines err) with
      | Some line => st_error ("❌ Processing error: " ++ line)
      | None => raise (IndexError "list index out of range")
      end
  | CalledProcessError _ _ None =>
      raise (AttributeError "'NoneType' object has no attribute 'splitlines'")
  | _ => raise e
  end.

(** [except Exception as e]. *)
Definition on_exception (e : exn) : M unit :=
  st_error ("❌ Unexpected error: " ++ str_exn e).

(** [finally]. *)
Definition cleanup : M unit :=
  rmtree_ignore_errors INPUT_DIR ;;
  rmtree_ignore_errors FRAME_DIR.

(** Everything from the environment check on: what runs once the form
    was submitted with a file. *)
Definition run_request (f : Form) (uf : UploadedFile) : M unit :=
  (if negb validate_environment
   then st_error "❌ Missing required dependencies: Install Primitive and ImageMagick" ;;
        st_stop
   else ret tt) ;;
  setup_directories ;;
  try_except_finally (try_body f uf) on_called_process_error on_exception cleanup.

(** [if submitted and uploaded_file: ...]; an uploaded file object is
    truthy, [None] is not. *)
Definition processing (f : Form) : M unit :=
  if submitted f then
    match uploaded_file f with
    | Some uf => run_request f uf
    | None => ret tt
    end
  else ret tt.

End Program.

(** ** Observing a run *)

Definition res {A} (x : result A * FS * list event) : result A := x.1.1.
Definition final_fs {A} (x : result A * FS * list event) : FS := x.1.2.
Definition trace {A} (x : result A * FS * list event) : list event := x.2.

(** [c] occurs in [s]. *)
Fixpoint occurs (c : ascii) (s : string) : bool :=
  match s with
  | EmptyString => false
  | String a s' => Ascii.eqb a c || occurs c s'
  end.

(** The command of a [subprocess.run] call. *)
Definition run_of (e : event) : option (list string * FS) :=
  match e with
  | ERun cmd b => Some (cmd, b)
  | _ => None
  end.

(** The external commands of a trace, each with the file system it started on. *)
Definition runs (t : list event) : list (list string * FS) := omap run_of t.

(** A computation that runs no external command. *)
Definition quiet {A} (m : M A) : Prop := forall fs, runs (trace (m fs)) = [].

Definition is_convert_cmd (cmd : list string) : bool :=
  match cmd with
  | prog :: _ => String.eqb prog "magick" || String.eqb prog "convert"
  | [] => false
  end.


(** The calls of a successful [setup_directories]. *)
Definition setup_calls : list event :=
  [EMkdir INPUT_DIR; EMkdir FRAME_DIR; EMkdir OUTPUT_DIR].

(** All three working directories are there. *)
Definition dirs_exist (fs : FS) : Prop :=
  Path.is_dir fs INPUT_DIR = true /\
  Path.is_dir fs FRAME_DIR = true /\
  Path.is_dir fs OUTPUT_DIR = true.

(** No regular file stands where a working directory belongs. *)
Definition dirs_free (fs : FS) : Prop :=
  Path.is_file fs INPUT_DIR = false /\
  Path.is_file fs FRAME_DIR = false /\
  Path.is_file fs OUTPUT_DIR = false.

(** The calls of the [finally] block. *)
Definition cleanup_calls : list event := [ERmtree INPUT_DIR; ERmtree FRAME_DIR].

(** The messages of [st.error] in a trace. *)
Definition errors (t : list event) : list string :=
  omap (fun e => match e with EError m => Some m | _ => None end) t.

(** ** Sample worlds and forms *)

(** A [shutil.which] that knows the listed commands. *)
Definition installed (l : list (string * string)) (x : string) : option string :=
  snd <$> List.find (fun kv => String.eqb (fst kv) x) l.

(** A tool writing [p], unless a directory is in the way. *)
Definition put_file (p : string) (fs : FS) : FS :=
  if Path.is_dir fs p then fs else <[p := File []]> fs.

(** [primitive] writes its output (two frames for a frame pattern),
    [convert] writes its last argument; both exit with status 0. *)
Definition sample_primitive (cmd : list string) (fs : FS) : proc_outcome :=
  let out := List.nth 4 cmd "" in
  if PyStr.endswith "%04d.png" out
  then Exited 0 "" "" (put_file "temp_frames/0002.png" (put_file "temp_frames/0001.png" fs))
  else Exited 0 "" "" (put_file out fs).

Definition sample_convert (cmd : list string) (fs : FS) : proc_outcome :=
  Exited 0 "" "" (put_file (List.last cmd "") fs).

Definition sample_exec (cmd : list string) (fs : FS) : proc_outcome :=
  if String.eqb (hd "" cmd) "primitive" then sample_primitive cmd fs
  else if String.eqb (hd "" cmd) "convert" then sample_convert cmd fs
  else NotFound.

(** Both tools installed and working. *)
Definition w_ok : World :=
  {| os_name := "posix";
     which := installed [("primitive", "/usr/bin/primitive"); ("convert", "/usr/bin/convert")];
     exec_tool := sample_exec |}.

(** Neither tool installed. *)
Definition w_bare : World :=
  {| os_name := "posix";
     which := installed [];
     exec_tool := fun _ _ => NotFound |}.

(** Only [primitive.exe] and [convert] on the search path of a POSIX
    system: the check passes, the command [primitive] does not exist. *)
Definition w_exe_only : World :=
  {| os_name := "posix";
     which := installed [("primitive.exe", "/opt/bin/primitive.exe");
                         ("convert", "/usr/bin/convert")];
     exec_tool := fun cmd fs =>
       if String.eqb (hd "" cmd) "convert" then sample_convert cmd fs else NotFound |}.

Definition primitive_diagnostics : string :=
  "reading temp_inputs/cat.png" ++ String PyStr.LF "error: unsupported image format".

Definition convert_diagnostics : string :=
  "convert: unable to open image" ++ String PyStr.LF "convert: no images defined".

(** [primitive] exits with status 1 and writes nothing. *)
Definition w_primitive_fails : World :=
  {| os_name := "posix";
     which := installed [("primitive", "/usr/bin/primitive"); ("convert", "/usr/bin/convert")];
     exec_tool := fun cmd fs =>
       if String.eqb (hd "" cmd) "primitive" then Exited 1 "" primitive_diagnostics fs
       else sample_exec cmd fs |}.

(** [convert] exits with status 1. *)
Definition w_convert_fails : World :=
  {| os_name := "posix";
     which := installed [("primitive", "/usr/bin/primitive"); ("convert", "/usr/bin/convert")];
     exec_tool := fun cmd fs =>
       if String.eqb (hd "" cmd) "convert" then Exited 1 "" convert_diagnostics fs
       else sample_exec cmd fs |}.

Definition cat_png : UploadedFile := {| uf_name := "cat.png"; uf_buffer := [] |}.

Definition form_of (file : option UploadedFile) (fmt : OutputFormat) : Form :=
  {| uploaded_file := file;
     num_shapes := 100; mode := "1"; bg_color := "#ffffff"; alpha := 128;
     resize := 256; output_size := 1024; rep := 0; nth := 1; workers := 0;
     output_format := fmt; verbose := false; very_verbose := false;
     submitted := true |}.

Definition f_png : Form := form_of (Some cat_png) PNG.
Definition f_gif : Form := form_of (Some cat_png) GIF.
Definition f_nofile : Form := form_of None PNG.

(** The file system of a GIF request once [primitive] has written two
    frames. *)
Definition fs_frames : FS :=
  list_to_map
    [ ("temp_inputs", Dir); ("temp_frames", Dir); ("outputs", Dir);
      ("temp_inputs/cat.png", File []);
      ("temp_frames/0001.png", File []); ("temp_frames/0002.png", File []) ].

(** ** Further vocabulary *)

(** A computation that shows no error message. *)
Definition no_errors {A} (m : M A) : Prop := forall fs, errors (trace (m fs)) = [].

(** What a computation raises derives from [Exception], and a
    [CalledProcessError] among it carries no captured stream. *)
Definition raises_plain {A} (m : M A) : Prop :=
  forall fs e, res (m fs) = Raise e ->
    is_Exception e = true /\
    forall rc cmd s, e = CalledProcessError rc cmd s -> s = None.

(** A computation that keeps a property of the file system. *)
Definition keeps {A} (I : FS -> Prop) (m : M A) : Prop :=
  forall fs, I fs -> I (final_fs (m fs)).

(** The two [except] clauses of the processing logic applied to the outcome
    of the [try] body. *)
Definition handled (x : result unit * FS * list event) : result unit * FS * list event :=
  match res x with
  | Ok a => (Ok a, final_fs x, [])
  | Raise e =>
      if is_CalledProcessError e then on_called_process_error e (final_fs x)
      else if is_Exception e then on_exception e (final_fs x)
      else (Raise e, final_fs x, [])
  end.

(** The [try] body from the GIF branch on, given the command line that
    [generate_artwork] returned. *)
Definition present_result (w : World) (f : Form) (uf : UploadedFile) (command : string)
  : M unit :=
  final_output <- (if is_gif f
                   then gif_conversion w (base_name_of w uf)
                   else ret (output_path_of w uf)) ;;
  st_image OutputPreview final_output ;;
  download_link w f final_output ;;
  emit (ECode command).


Definition missing_dependencies_message : string :=
  "❌ Missing required dependencies: Install Primitive and ImageMagick".

Definition handler_crash : exn :=
  AttributeError "'NoneType' object has no attribute 'splitlines'".

(** What [Path.mkdir(exist_ok=True)] leaves when it succeeds. *)
Definition mkdir_fs (d : string) (fs : FS) : FS :=
  match fs !! d with
  | None => <[d := Dir]> fs
  | Some _ => fs
  end.

(** What a successful [setup_directories] leaves. *)
Definition setup_fs (fs : FS) : FS :=
  mkdir_fs OUTPUT_DIR (mkdir_fs FRAME_DIR (mkdir_fs INPUT_DIR fs)).

(** A file name of one component. *)
Definition plain_name (sep : ascii) (n : string) : Prop :=
  n <> "" /\ occurs sep n = false.

(** The entries of the shape mode select box. *)
Definition mode_options : list string :=
  [ "0=combo 🎲"; "1=triangle 🔺"; "2=rect ▭"; "3=ellipse 🟠";
    "4=circle ⭕"; "5=rotatedrect 🔄"; "6=beziers 🎢";
    "7=rotatedellipse 🌗"; "8=polygon 🔷" ].

(** [label.split("=")[0]]: what stands before the first [=], the whole
    label when there is none. *)
Fixpoint before_equals (label : string) : string :=
  match label with
  | EmptyString => EmptyString
  | String c rest => if Ascii.eqb c "="%char then EmptyString else String c (before_equals rest)
  end.

(** The mode the form passes on for the entry selected. *)
Definition mode_of_option (label : string) : string := before_equals label.

(** ** Further sample file systems *)

(** A regular file where the frame directory belongs. *)
Definition fs_blocked : FS := {[ "temp_frames" := File [] ]}.

(** The empty file system after the setup and the upload of [cat.png]. *)
Definition fs_uploaded : FS := <["temp_inputs/cat.png" := File []]> (setup_fs ∅).

(** A frame directory holding a frame file and a directory named like a
    frame. *)
Definition fs_odd_frames : FS :=
  list_to_map
    [ ("temp_frames", Dir); ("temp_frames/a.png", File []); ("temp_frames/b.png", Dir) ].

(** * Properties *)

(** ** The model at work *)

Example stem_examples :
  Path.stem "/" "cat.png" = "cat" /\
  Path.stem "/" "archive.tar.gz" = "archive.tar" /\
  Path.stem "/" ".hidden" = ".hidden" /\
  Path.stem "/" "trailing." = "trailing.".
Proof. repeat split; reflexivity. Qed.

Example background_examples :
  PyStr.py_or (PyStr.lstrip "#" "#1a2b3c") "ffffff" = "1a2b3c" /\
  PyStr.py_or (PyStr.lstrip "#" "##") "ffffff" = "ffffff".
Proof. split; reflexivity. Qed.

Example splitlines_example :
  PyStr.splitlines ("a" ++ String PyStr.LF ("b" ++ String PyStr.CR (String PyStr.LF "c")))
  = ["a"; "b"; "c"].
Proof. reflexivity. Qed.

Example format_word_example :
  PyStr.lower <$> PyStr.first_word (format_label GIF) = Some "gif".
Proof. reflexivity. Qed.

Example gif_request_runs :
  let x := processing w_ok f_gif ∅ in
  res x = Ok tt /\
  map fst (runs (trace x)) =
    [ ["primitive"; "-i"; "temp_inputs/cat.png"; "-o"; "temp_frames/%04d.png";
       "-n"; "100"; "-m"; "1"; "-rep"; "0"; "-nth"; "1"; "-r"; "256";
       "-s"; "1024"; "-a"; "128"; "-bg"; "ffffff"; "-j"; "0"];
      ["convert"; "-delay"; "10"; "-loop"; "0"; "temp_frames/*.png";
       "outputs/cat_animation.gif"] ] /\
  map_to_list (final_fs x) = [("outputs/cat_animation.gif", File []); ("outputs", Dir)].
Proof. vm_compute. repeat split; reflexivity. Qed.

Section StringFacts.

Lemma split_last_None c s : PyStr.split_last c s = None -> occurs c s = false.
Proof.
  induction s as [|a s IH]; simpl; [done|].
  destruct (PyStr.split_last c s) as [[l r]|]; [done|].
  destruct (Ascii.eqb a c); [done|]. intros _. by rewrite IH.
Qed.

Lemma split_last_Some c s l r :
  PyStr.split_last c s = Some (l, r) ->
  s = l ++ String c r /\ occurs c r = false.
Proof.
  revert l. induction s as [|a s IH]; simpl; intros l; [done|].
  destruct (PyStr.split_last c s) as [[l' r']|] eqn:E.
  - intros [= <- <-]. destruct (IH l' eq_refl) as [-> ?]. done.
  - destruct (Ascii.eqb a c) eqn:Ea; [|done].
    intros [= <- <-]. apply Ascii.eqb_eq in Ea as ->.
    split; [done|]. by apply split_last_None.
Qed.

Lemma occurs_app c s t : occurs c (s ++ t) = occurs c s || occurs c t.
Proof. induction s as [|a s IH]; simpl; [done|]. by rewrite IH, orb_assoc. Qed.

Lemma name_no_sep sep p : occurs sep (Path.name sep p) = false.
Proof.
  unfold Path.name. destruct (PyStr.split_last sep p) as [[l r]|] eqn:E.
  - by apply split_last_Some in E as [_ ?].
  - by apply split_last_None.
Qed.

Lemma stem_no_sep sep p : occurs sep (Path.stem sep p) = false.
Proof.
  unfold Path.stem. pose proof (name_no_sep sep p) as Hn.
  destruct (PyStr.split_last "." (Path.name sep p)) as [[l r]|] eqn:E; [|done].
  destruct (PyStr.truthy l && PyStr.truthy r); [|done].
  apply split_last_Some in E as [E _]. rewrite E, occurs_app in Hn.
  by apply orb_false_iff in Hn as [? _].
Qed.

Lemma joinpath_relative sep d n :
  n <> "" -> occurs sep n = false \/ (exists a n', n = String a n' /\ a <> sep) ->
  Path.joinpath sep d n = d ++ String sep n.
Proof.
  intros Hne H. destruct n as [|a n']; [done|]. simpl.
  destruct (Ascii.eqb a sep) eqn:Ea; [|done]. exfalso.
  apply Ascii.eqb_eq in Ea as ->. destruct H as [H|(?&?&[= <- <-]&?)]; [|done].
  simpl in H. by rewrite Ascii.eqb_refl in H.
Qed.

Lemma joinpath_stem_suffix sep d p suf :
  suf <> "" -> occurs sep suf = false ->
  Path.joinpath sep d (Path.stem sep p ++ suf) = d ++ String sep (Path.stem sep p ++ suf).
Proof.
  intros Hs Ho. apply joinpath_relative.
  - destruct (Path.stem sep p); [done|done].
  - left. by rewrite occurs_app, stem_no_sep, Ho.
Qed.

End StringFacts.

Section PureFunctions.
Variable w : World.

Lemma sep_cases : path_sep w = "/"%char \/ path_sep w = "\"%char.
Proof. unfold path_sep. destruct (is_nt w); auto. Qed.

(** C4.  The environment check is true exactly when one of the names
    [primitive], [primitive.exe] and one of the names [magick], [convert]
    is found on the search path; when [shutil.which] finds neither name
    of one of the two tools, the check is false. *)
Theorem validate_environment_spec :
  (validate_environment w = true <->
     (found w "primitive" = true \/ found w "primitive.exe" = true) /\
     (found w "magick" = true \/ found w "convert" = true)) /\
  (which w "primitive" = None /\ which w "primitive.exe" = None \/
   which w "magick" = None /\ which w "convert" = None ->
   validate_environment w = false).
Proof.
  unfold validate_environment, found. simpl. split.
  - rewrite !orb_false_r, andb_true_r, andb_true_iff, !orb_true_iff. tauto.
  - intros [[-> ->]|[-> ->]]; simpl; [done|]. by rewrite andb_false_r.
Qed.

End PureFunctions.

Section Guards.
Variable w : World.

Lemma joinpath_literal d n :
  n <> "" -> occurs "/" n = false -> occurs "\" n = false ->
  Path.joinpath (path_sep w) d n = d ++ String (path_sep w) n.
Proof.
  intros ? H1 H2. apply joinpath_relative; [done|]. left.
  by destruct (sep_cases w) as [-> | ->].
Qed.

Lemma joinpath_stem d p suf :
  suf <> "" -> occurs "/" suf = false -> occurs "\" suf = false ->
  Path.joinpath (path_sep w) d (Path.stem (path_sep w) p ++ suf)
  = d ++ String (path_sep w) (Path.stem (path_sep w) p ++ suf).
Proof.
  intros ? H1 H2. apply joinpath_stem_suffix; [done|].
  by destruct (sep_cases w) as [-> | ->].
Qed.

Lemma is_gif_spec (f : Form) :
  is_gif f = match output_format f with GIF => true | _ => false end.
Proof. unfold is_gif. by destruct (output_format f). Qed.

(** C6.  The output path handed to the tool after [-o] follows the
    format selector: the frame pattern in the frame directory for GIF,
    the single image [<stem>_result.png] in the output directory for
    PNG, JPG and SVG. *)
Theorem output_path_by_format (f : Form) (uf : UploadedFile) :
  let out :=
    match output_format f with
    | GIF => FRAME_DIR ++ String (path_sep w) "%04d.png"
    | PNG | JPG | SVG =>
        OUTPUT_DIR ++ String (path_sep w) (Path.stem (path_sep w) (uf_name uf) ++ "_result.png")
    end in
  p_output_path (make_params w f uf) = out /\
  artwork_cmd w (make_params w f uf) !! 3%nat = Some "-o" /\
  artwork_cmd w (make_params w f uf) !! 4%nat = Some out.
Proof.
  assert (p_output_path (make_params w f uf) =
    match output_format f with
    | GIF => FRAME_DIR ++ String (path_sep w) "%04d.png"
    | PNG | JPG | SVG =>
        OUTPUT_DIR ++ String (path_sep w) (Path.stem (path_sep w) (uf_name uf) ++ "_result.png")
    end) as H.
  { unfold make_params, output_path_of, base_name_of. cbn [p_output_path].
    rewrite is_gif_spec.
    destruct (output_format f);
      first [by apply joinpath_stem | by apply joinpath_literal]. }
  simpl. split; [done|]. split; [done|]. unfold artwork_cmd. simpl. by rewrite <- H.
Qed.

(** C7.  When the environment check fails, a submitted request stops at
    once: the only call is the error message, the file system is what it
    was (no directory made, no upload written) and no command is run. *)
Theorem missing_dependency_aborts (f : Form) (uf : UploadedFile) (fs : FS) :
  validate_environment w = false ->
  submitted f = true ->
  uploaded_file f = Some uf ->
  processing w f fs =
    (Raise StopException, fs,
     [EError "❌ Missing required dependencies: Install Primitive and ImageMagick"]).
Proof.
  intros Hv Hs Hu. unfold processing, run_request. rewrite Hs, Hu, Hv. reflexivity.
Qed.

(** C10.  Without an uploaded file the processing block does nothing:
    no call of any kind (so no directory, no file, no command, no error
    message) and the same file system. *)
Theorem no_upload_no_effect (f : Form) (fs : FS) :
  uploaded_file f = None ->
  processing w f fs = (Ok tt, fs, []).
Proof.
  intros Hu. unfold processing. rewrite Hu. by destruct (submitted f).
Qed.
End Guards.

Section Monad.

Context {A B : Type}.

Lemma res_bind (m : M A) (k : A -> M B) fs :
  res (bind m k fs) =
    match res (m fs) with
    | Ok a => res (k a (final_fs (m fs)))
    | Raise e => Raise e
    end.
Proof.
  unfold bind, res, final_fs. destruct (m fs) as [[[a|e] fs1] t1]; simpl; [|done].
  by destruct (k a fs1) as [[? ?] ?].
Qed.

Lemma final_fs_bind (m : M A) (k : A -> M B) fs :
  final_fs (bind m k fs) =
    match res (m fs) with
    | Ok a => final_fs (k a (final_fs (m fs)))
    | Raise e => final_fs (m fs)
    end.
Proof.
  unfold bind, res, final_fs. destruct (m fs) as [[[a|e] fs1] t1]; simpl; [|done].
  by destruct (k a fs1) as [[? ?] ?].
Qed.

Lemma trace_bind (m : M A) (k : A -> M B) fs :
  trace (bind m k fs) =
    (trace (m fs) ++
     match res (m fs) with
     | Ok a => trace (k a (final_fs (m fs)))
     | Raise e => []
     end)%list.
Proof.
  unfold bind, res, final_fs, trace. destruct (m fs) as [[[a|e] fs1] t1]; simpl.
  - by destruct (k a fs1) as [[? ?] ?].
  - by rewrite app_nil_r.
Qed.

Lemma runs_app t1 t2 : runs (t1 ++ t2) = (runs t1 ++ runs t2)%list.
Proof. apply omap_app. Qed.

Lemma quiet_bind (m : M A) (k : A -> M B) :
  quiet m -> (forall a, quiet (k a)) -> quiet (bind m k).
Proof.
  intros Hm Hk fs. rewrite trace_bind, runs_app, Hm. simpl.
  destruct (res (m fs)); [apply Hk|done].
Qed.

End Monad.

Lemma trace_try_except_finally {A} (body : M A) h1 h2 (fin : M unit) fs :
  exists fs2 th,
    trace (try_except_finally body h1 h2 fin fs)
      = (trace (body fs) ++ th ++ trace (fin fs2))%list /\
    final_fs (try_except_finally body h1 h2 fin fs) = final_fs (fin fs2) /\
    (th = [] \/
     exists e, res (body fs) = Raise e /\
       (th = trace (h1 e (final_fs (body fs))) \/ th = trace (h2 e (final_fs (body fs))))).
Proof.
  unfold try_except_finally, trace, final_fs, res.
  destruct (body fs) as [[[a|e] fs1] t1]; simpl.
  - exists fs1, []. destruct (fin fs1) as [[? ?] ?]; simpl. auto.
  - destruct (is_CalledProcessError e).
    + destruct (h1 e fs1) as [[r2 fs2] t2] eqn:E. exists fs2, t2.
      destruct (fin fs2) as [[? ?] ?]; simpl. split; [done|]. split; [done|].
      right. exists e. rewrite E. auto.
    + destruct (is_Exception e).
      * destruct (h2 e fs1) as [[r2 fs2] t2] eqn:E. exists fs2, t2.
        destruct (fin fs2) as [[? ?] ?]; simpl. split; [done|]. split; [done|].
        right. exists e. rewrite E. auto.
      * exists fs1, []. destruct (fin fs1) as [[? ?] ?]; simpl. auto.
Qed.

Section Quiet.
Variable w : World.

Lemma quiet_ret {A} (a : A) : quiet (ret a).
Proof. done. Qed.

Lemma quiet_raise {A} e : quiet (@raise A e).
Proof. done. Qed.

Lemma quiet_emit e : run_of e = None -> quiet (emit e).
Proof. intros H fs. unfold emit, trace, runs. simpl. by rewrite H. Qed.

Lemma quiet_st_error msg : quiet (st_error msg).
Proof. by apply quiet_emit. Qed.

Lemma quiet_st_image s p : quiet (st_image s p).
Proof. intros fs. unfold st_image. by destruct (Path.is_file fs p). Qed.

Lemma quiet_mkdir p : quiet (mkdir_exist_ok w p).
Proof.
  intros fs. unfold mkdir_exist_ok.
  destruct (fs !! p) as [[|?]|]; try done. by destruct (Path.parent_is_dir _ _ _).
Qed.

Lemma quiet_write_file p d : quiet (write_file w p d).
Proof.
  intros fs. unfold write_file.
  destruct (fs !! p) as [[|?]|]; try done; by destruct (Path.parent_is_dir _ _ _).
Qed.

Lemma quiet_read_file p : quiet (read_file p).
Proof. intros fs. unfold read_file. by destruct (fs !! p) as [[|?]|]. Qed.

Lemma quiet_unlink p : quiet (unlink p).
Proof. intros fs. unfold unlink. by destruct (fs !! p) as [[|?]|]. Qed.

Lemma quiet_rmtree d : quiet (rmtree_ignore_errors w d).
Proof. done. Qed.

Lemma quiet_for_each {A} (l : list A) (f : A -> M unit) :
  (forall x, quiet (f x)) -> quiet (for_each l f).
Proof.
  intros Hf. induction l as [|x l IH]; simpl; [done|]. by apply quiet_bind.
Qed.

Lemma quiet_frame_cleanup : quiet (frame_cleanup w).
Proof. intros fs. unfold frame_cleanup. apply quiet_for_each, quiet_unlink. Qed.

Lemma quiet_setup : quiet (setup_directories w).
Proof.
  unfold setup_directories.
  apply quiet_bind; [apply quiet_mkdir|intros _].
  apply quiet_bind; [apply quiet_mkdir|intros _]. apply quiet_mkdir.
Qed.

Lemma quiet_cleanup : quiet (cleanup w).
Proof. apply quiet_bind; [apply quiet_rmtree|intros _; apply quiet_rmtree]. Qed.

Lemma quiet_download f p : quiet (download_link w f p).
Proof.
  apply quiet_bind; [apply quiet_read_file|]. intros d.
  destruct (PyStr.first_word _); [by apply quiet_emit | apply quiet_raise].
Qed.

Lemma quiet_on_cpe e : quiet (on_called_process_error e).
Proof.
  destruct e as [? ? [err|] | | | | | | |]; simpl; try apply quiet_raise.
  destruct (last _); [apply quiet_st_error | apply quiet_raise].
Qed.

Lemma quiet_on_exception e : quiet (on_exception e).
Proof. apply quiet_st_error. Qed.

End Quiet.

Section Steps.
Variable w : World.

Lemma runs_bind_quiet {A B} (m : M A) (k : A -> M B) fs :
  (forall a, quiet (k a)) -> runs (trace (bind m k fs)) = runs (trace (m fs)).
Proof.
  intros Hk. rewrite trace_bind, runs_app.
  destruct (res (m fs)); [rewrite Hk|]; by rewrite app_nil_r.
Qed.

Lemma working_dir_top_level fs d :
  d = INPUT_DIR \/ d = FRAME_DIR \/ d = OUTPUT_DIR ->
  Path.parent_is_dir (path_sep w) fs d = true.
Proof.
  unfold Path.parent_is_dir.
  intros [->|[->| ->]]; by destruct (sep_cases w) as [-> | ->].
Qed.

Lemma mkdir_working_dir fs d :
  d = INPUT_DIR \/ d = FRAME_DIR \/ d = OUTPUT_DIR ->
  (Path.is_file fs d = true /\ exists e, mkdir_exist_ok w d fs = (Raise e, fs, [])) \/
  (Path.is_file fs d = false /\ exists fs1,
     mkdir_exist_ok w d fs = (Ok tt, fs1, [EMkdir d]) /\
     Path.is_dir fs1 d = true /\
     (forall q, Path.is_dir fs q = true -> Path.is_dir fs1 q = true) /\
     (forall q, Path.is_file fs1 q = Path.is_file fs q)).
Proof.
  intros Hd. unfold mkdir_exist_ok, Path.is_file, Path.is_dir.
  rewrite (working_dir_top_level fs d Hd).
  destruct (fs !! d) as [[|c]|] eqn:E.
  - right. split; [done|]. exists fs. by rewrite E.
  - left. eauto.
  - right. split; [done|]. exists (<[d:=Dir]> fs). rewrite lookup_insert_eq.
    split; [done|]. split; [done|]. split; intros q.
    + destruct (decide (d = q)) as [<-|]; [by rewrite E|]. by rewrite lookup_insert_ne.
    + destruct (decide (d = q)) as [<-|];
        [by rewrite lookup_insert_eq, E | by rewrite lookup_insert_ne].
Qed.

Lemma setup_directories_cases fs :
  (dirs_free fs /\ exists fs1,
     setup_directories w fs = (Ok tt, fs1, setup_calls) /\ dirs_exist fs1) \/
  (~ dirs_free fs /\ exists e, res (setup_directories w fs) = Raise e).
Proof.
  unfold setup_directories, dirs_free, dirs_exist, setup_calls, bind, res.
  destruct (mkdir_working_dir fs INPUT_DIR) as [[F1 [e ->]]|[F1 (fs1 & -> & D1 & P1 & Q1)]];
    [auto| |]; simpl.
  { right. split; [|eauto]. rewrite F1. intros (?&?&?). done. }
  destruct (mkdir_working_dir fs1 FRAME_DIR) as [[F2 [e ->]]|[F2 (fs2 & -> & D2 & P2 & Q2)]];
    [auto| |]; simpl.
  { right. split; [|eauto]. rewrite Q1 in F2. rewrite F2. intros (?&?&?). done. }
  destruct (mkdir_working_dir fs2 OUTPUT_DIR) as [[F3 [e ->]]|[F3 (fs3 & -> & D3 & P3 & Q3)]];
    [auto| |]; simpl.
  { right. split; [|eauto]. rewrite Q2, Q1 in F3. rewrite F3. intros (?&?&?). done. }
  left. rewrite Q1 in F2. rewrite Q2, Q1 in F3. split; [done|].
  exists fs3. auto.
Qed.

Lemma write_file_result p d fs :
  (exists e, write_file w p d fs = (Raise e, fs, [])) \/
  (fs !! p <> Some Dir /\ write_file w p d fs = (Ok tt, <[p := File d]> fs, [EWrite p d])).
Proof.
  unfold write_file. destruct (fs !! p) as [[|c]|]; [left; eauto| |];
    (destruct (Path.parent_is_dir _ _ _); [right; done | left; eauto]).
Qed.

Lemma st_image_result s p fs :
  (exists e, st_image s p fs = (Raise e, fs, [])) \/ st_image s p fs = (Ok tt, fs, [EImage s p]).
Proof. unfold st_image. destruct (Path.is_file fs p); eauto. Qed.

Lemma trace_subprocess_run cmd check capture fs :
  trace (subprocess_run w cmd check capture fs) = [ERun cmd fs].
Proof.
  unfold subprocess_run, trace. destruct (exec_tool w cmd fs); [done|].
  by destruct (check && negb (returncode =? 0)).
Qed.

Lemma trace_generate_artwork p fs :
  trace (generate_artwork w p fs) = [ERun (artwork_cmd w p) fs].
Proof.
  unfold generate_artwork. rewrite trace_bind, trace_subprocess_run.
  destruct (res _); by simpl.
Qed.

Lemma generate_artwork_result p fs :
  match exec_tool w (artwork_cmd w p) fs with
  | NotFound => exists e, res (generate_artwork w p fs) = Raise e
  | Exited rc out err fs' =>
      res (generate_artwork w p fs) = Ok (PyStr.join " " (artwork_cmd w p)) /\
      final_fs (generate_artwork w p fs) = fs'
  end.
Proof.
  unfold generate_artwork, bind, subprocess_run, res, final_fs.
  destruct (exec_tool w (artwork_cmd w p) fs); simpl; eauto.
Qed.

Lemma runs_gif_conversion base fs :
  runs (trace (gif_conversion w base fs)) = [(gif_cmd w base, fs)].
Proof.
  unfold gif_conversion, create_gif.
  rewrite runs_bind_quiet.
  - rewrite trace_bind, trace_subprocess_run. by destruct (res _).
  - intros a. apply quiet_bind; [apply quiet_frame_cleanup | intros; apply quiet_ret].
Qed.

Lemma trace_bind_Ok {A B} (m : M A) (k : A -> M B) fs a fs1 t1 :
  m fs = (Ok a, fs1, t1) -> trace (bind m k fs) = (t1 ++ trace (k a fs1))%list.
Proof. intros H. rewrite trace_bind. unfold res, final_fs, trace. by rewrite H. Qed.

Lemma trace_bind_Raise {A B} (m : M A) (k : A -> M B) fs e fs1 t1 :
  m fs = (Raise e, fs1, t1) -> trace (bind m k fs) = t1.
Proof.
  intros H. rewrite trace_bind. unfold res, final_fs, trace. rewrite H. apply app_nil_r.
Qed.

Lemma written_file_is_file p d (fs : FS) : Path.is_file (<[p := File d]> fs) p = true.
Proof. unfold Path.is_file. by rewrite lookup_insert_eq. Qed.

Lemma try_body_runs f uf fs :
  let art := artwork_cmd w (make_params w f uf) in
  let ip := input_path_of w uf in
  let b := <[ip := File (uf_buffer uf)]> fs in
  let t := trace (try_body w f uf fs) in
  runs t = [] \/
  (fs !! ip <> Some Dir /\
   ((runs t = [(art, b)] /\ (exec_tool w art b = NotFound \/ is_gif f = false)) \/
    (exists rc out err b',
       exec_tool w art b = Exited rc out err b' /\ is_gif f = true /\
       runs t = [(art, b); (gif_cmd w (base_name_of w uf), b')]))).
Proof.
  intros art ip b t. subst t. unfold try_body. fold ip.
  destruct (write_file_result ip (uf_buffer uf) fs) as [[e Hw]|[Hnd Hw]].
  { left. by rewrite (trace_bind_Raise _ _ _ _ _ _ Hw). }
  right. split; [done|]. rewrite (trace_bind_Ok _ _ _ _ _ _ Hw). fold b.
  assert (st_image InputPreview ip b = (Ok tt, b, [EImage InputPreview ip])) as Hi.
  { unfold st_image, b. by rewrite written_file_is_file. }
  rewrite (trace_bind_Ok _ _ _ _ _ _ Hi).
  rewrite trace_bind, trace_generate_artwork. fold art.
  pose proof (generate_artwork_result (make_params w f uf) b) as Hg. fold art in Hg.
  destruct (exec_tool w art b) as [|rc out err b'] eqn:Ex.
  { destruct Hg as [e He]. rewrite He. left. simpl. auto. }
  destruct Hg as [Hr Hf]. rewrite Hr, Hf. rewrite !runs_app.
  destruct (is_gif f) eqn:Eg.
  - right. exists rc, out, err, b'. split; [done|]. split; [done|].
    rewrite runs_bind_quiet.
    + by rewrite runs_gif_conversion.
    + intros a. apply quiet_bind; [apply quiet_st_image|intros _].
      apply quiet_bind; [apply quiet_download|intros _]. by apply quiet_emit.
  - left. split; [|auto].
    rewrite runs_bind_quiet; [done|].
    intros a. apply quiet_bind; [apply quiet_st_image|intros _].
    apply quiet_bind; [apply quiet_download|intros _]. by apply quiet_emit.
Qed.
End Steps.

Section Request.
Variable w : World.

Lemma bind_ret_l {A B} (a : A) (k : A -> M B) fs : bind (ret a) k fs = k a fs.
Proof. unfold bind, ret. by destruct (k a fs) as [[? ?] ?]. Qed.

Lemma elem_of_runs cmd b t : (cmd, b) ∈ runs t <-> ERun cmd b ∈ t.
Proof.
  unfold runs. rewrite list_elem_of_omap. split.
  - intros (e & He & Hr). destruct e; simpl in Hr; try done. by injection Hr as -> ->.
  - intros H. by exists (ERun cmd b).
Qed.



Lemma run_request_cases f uf fs :
  let x := run_request w f uf fs in
  (runs (trace x) = [] /\ (validate_environment w = false \/ ~ dirs_free fs)) \/
  (validate_environment w = true /\ dirs_free fs /\
   exists fs1 fs2 th,
     setup_directories w fs = (Ok tt, fs1, setup_calls) /\
     dirs_exist fs1 /\
     trace x = (setup_calls ++ trace (try_body w f uf fs1) ++ th ++ cleanup_calls)%list /\
     runs th = [] /\
     final_fs x
       = Path.rmtree_fs (path_sep w) FRAME_DIR (Path.rmtree_fs (path_sep w) INPUT_DIR fs2)).
Proof.
  intros x. subst x. unfold run_request.
  destruct (validate_environment w) eqn:Ev; simpl.
  2:{ left. split; [done|by left]. }
  rewrite bind_ret_l.
  destruct (setup_directories_cases w fs) as [[Hf (fs1 & Hs & Hd)]|[Hf [e He]]].
  2:{ left. split; [|by right].
      rewrite trace_bind, runs_app, quiet_setup, He. done. }
  right. split; [done|]. split; [done|].
  destruct (trace_try_except_finally (try_body w f uf) on_called_process_error
              on_exception (cleanup w) fs1) as (fs2 & th & Ht & Hfs & Hth).
  exists fs1, fs2, th. split; [done|]. split; [done|].
  rewrite (trace_bind_Ok _ _ _ _ _ _ Hs), final_fs_bind.
  unfold res at 1, final_fs at 2. rewrite Hs. cbn [fst snd].
  split; [by rewrite Ht|]. split; [|by rewrite Hfs].
  destruct Hth as [->|(e & _ & [->| ->])]; [done|apply quiet_on_cpe|apply quiet_on_exception].
Qed.

End Request.

Section Frames.
Variable w : World.


Lemma elem_of_glob_png sep fs d p :
  p ∈ Path.glob_png sep fs d <->
  Path.is_dir fs d = true /\ is_Some (fs !! p) /\ Path.png_entry sep d p = true.
Proof.
  unfold Path.glob_png. destruct (Path.is_dir fs d).
  - rewrite list_elem_of_In, filter_In, <- list_elem_of_In, list_elem_of_fmap. split.
    + intros [([k v] & -> & Hkv) Hp]. apply elem_of_map_to_list in Hkv.
      simpl. eauto.
    + intros (_ & [v Hv] & Hp). split; [|done]. exists (p, v). split; [done|].
      by apply elem_of_map_to_list.
  - split; [intros H; by apply elem_of_nil in H | by intros [? _]].
Qed.

Lemma NoDup_glob_png sep fs d : NoDup (Path.glob_png sep fs d).
Proof.
  unfold Path.glob_png. destruct (Path.is_dir fs d); [|constructor].
  apply NoDup_ListNoDup, List.NoDup_filter, NoDup_ListNoDup, NoDup_fst_map_to_list.
Qed.


End Frames.

Section Main.
Variable w : World.

Lemma processing_run_request f uf fs :
  submitted f = true -> uploaded_file f = Some uf ->
  processing w f fs = run_request w f uf fs.
Proof. intros Hs Hu. unfold processing. by rewrite Hs, Hu. Qed.


Lemma is_convert_artwork_cmd p : is_convert_cmd (artwork_cmd w p) = false.
Proof. unfold artwork_cmd. by destruct (is_nt w). Qed.

Lemma is_convert_gif_cmd base : is_convert_cmd (gif_cmd w base) = true.
Proof. unfold gif_cmd. by destruct (found w "magick"). Qed.




Lemma dirs_exist_insert_file (fs : FS) p d :
  fs !! p <> Some Dir -> dirs_exist fs -> dirs_exist (<[p := File d]> fs).
Proof.
  intros Hp (H1 & H2 & H3). unfold dirs_exist, Path.is_dir in *.
  assert (forall q, match fs !! q with Some Dir => true | _ => false end = true ->
                    match <[p := File d]> fs !! q with Some Dir => true | _ => false end = true)
    as H.
  { intros q Hq. destruct (decide (p = q)) as [<-|].
    - destruct (fs !! p) as [[|c]|]; done.
    - by rewrite lookup_insert_ne. }
  auto.
Qed.



End Main.

(** ** Runs on the sample worlds *)

Section Samples.

Lemma dirs_exist_put_file p fs : dirs_exist fs -> dirs_exist (put_file p fs).
Proof.
  intros H. unfold put_file. destruct (Path.is_dir fs p) eqn:E; [done|].
  apply dirs_exist_insert_file; [|done]. unfold Path.is_dir in E.
  intros Hp. by rewrite Hp in E.
Qed.

Lemma sample_exec_keeps_dirs cmd b rc out err b' :
  exec_tool w_ok cmd b = Exited rc out err b' -> dirs_exist b -> dirs_exist b'.
Proof.
  simpl. unfold sample_exec, sample_primitive, sample_convert. intros H Hd.
  destruct (String.eqb (hd "" cmd) "primitive").
  - destruct (PyStr.endswith _ _); injection H as _ _ _ <-;
      repeat apply dirs_exist_put_file; done.
  - destruct (String.eqb (hd "" cmd) "convert"); [|done].
    injection H as _ _ _ <-. by apply dirs_exist_put_file.
Qed.

Lemma dirs_free_empty : dirs_free ∅.
Proof. by repeat split. Qed.

End Samples.



(** C2 at two failing inputs.  [primitive] exits with status 1: the run
    goes on and the only message is the generic one about the missing
    result file.  [convert] exits with status 1: the handler finds no
    captured stream, raises [AttributeError], and no message is shown.  In
    neither run does the last line of the tool's diagnostics reach the
    user. *)
Theorem tool_diagnostics_not_surfaced :
  let x := processing w_primitive_fails f_png ∅ in
  let y := processing w_convert_fails f_gif ∅ in
  last (PyStr.splitlines primitive_diagnostics) = Some "error: unsupported image format" /\
  last (PyStr.splitlines convert_diagnostics) = Some "convert: no images defined" /\
  res x = Ok tt /\
  errors (trace x) = ["❌ Unexpected error: Error opening 'outputs/cat_result.png'"] /\
  res y = Raise (AttributeError "'NoneType' object has no attribute 'splitlines'") /\
  errors (trace y) = [].
Proof. vm_compute. repeat split; reflexivity. Qed.


Lemma validate_environment_spec_witness : validate_environment w_bare = false.
Proof.
  exact (proj2 (validate_environment_spec w_bare) (or_introl (conj eq_refl eq_refl))).
Defined.


Lemma missing_dependency_aborts_witness :
  processing w_bare f_png ∅ =
    (Raise StopException, ∅,
     [EError "❌ Missing required dependencies: Install Primitive and ImageMagick"]).
Proof. exact (missing_dependency_aborts w_bare f_png cat_png ∅ eq_refl eq_refl eq_refl). Defined.

Lemma no_upload_no_effect_witness : processing w_ok f_nofile ∅ = (Ok tt, ∅, []).
Proof. exact (no_upload_no_effect w_ok f_nofile ∅ eq_refl). Defined.




(** * Further properties of the processing logic *)

Section Outcomes.
Variable w : World.

Lemma errors_app t1 t2 : errors (t1 ++ t2) = (errors t1 ++ errors t2)%list.
Proof. apply omap_app. Qed.

Lemma no_errors_bind {A B} (m : M A) (k : A -> M B) :
  no_errors m -> (forall a, no_errors (k a)) -> no_errors (bind m k).
Proof.
  intros Hm Hk fs. rewrite trace_bind, errors_app, Hm. simpl.
  destruct (res (m fs)); [apply Hk|done].
Qed.

Lemma raises_plain_bind {A B} (m : M A) (k : A -> M B) :
  raises_plain m -> (forall a, raises_plain (k a)) -> raises_plain (bind m k).
Proof.
  intros Hm Hk fs e. rewrite res_bind.
  destruct (res (m fs)) as [a|e'] eqn:E.
  - apply Hk.
  - intros [= <-]. by apply (Hm fs).
Qed.

Lemma keeps_bind {A B} I (m : M A) (k : A -> M B) :
  keeps I m -> (forall a, keeps I (k a)) -> keeps I (bind m k).
Proof.
  intros Hm Hk fs HI. rewrite final_fs_bind.
  destruct (res (m fs)) as [a|e]; [apply Hk|]; by apply Hm.
Qed.

(** The shape of every library call: no message, plain exceptions. *)
Ltac plain_call :=
  intros fs e; unfold res; simpl;
  repeat match goal with
         | |- context [match ?x with _ => _ end] => destruct x
         end;
  simpl; try discriminate; intros [= <-]; (split; [done|]); intros; try discriminate.

Lemma no_errors_ret {A} (a : A) : no_errors (ret a).
Proof. done. Qed.

Lemma raises_plain_ret {A} (a : A) : raises_plain (ret a).
Proof. intros fs e. discriminate. Qed.

Lemma no_errors_emit e : (forall m, e <> EError m) -> no_errors (emit e).
Proof. intros H fs. unfold emit, trace, errors. simpl. destruct e; try done. by destruct (H msg). Qed.

Lemma raises_plain_emit e : raises_plain (emit e).
Proof. intros fs e'. discriminate. Qed.

Lemma no_errors_write_file p d : no_errors (write_file w p d).
Proof.
  intros fs. unfold write_file.
  destruct (fs !! p) as [[|?]|]; try done; by destruct (Path.parent_is_dir _ _ _).
Qed.

Lemma raises_plain_write_file p d : raises_plain (write_file w p d).
Proof. unfold write_file. plain_call. Qed.

Lemma no_errors_st_image s p : no_errors (st_image s p).
Proof. intros fs. unfold st_image. by destruct (Path.is_file fs p). Qed.

Lemma raises_plain_st_image s p : raises_plain (st_image s p).
Proof. unfold st_image. plain_call. Qed.

Lemma no_errors_read_file p : no_errors (read_file p).
Proof. intros fs. unfold read_file. by destruct (fs !! p) as [[|?]|]. Qed.

Lemma raises_plain_read_file p : raises_plain (read_file p).
Proof. unfold read_file. plain_call. Qed.

Lemma no_errors_unlink p : no_errors (unlink p).
Proof. intros fs. unfold unlink. by destruct (fs !! p) as [[|?]|]. Qed.

Lemma raises_plain_unlink p : raises_plain (unlink p).
Proof. unfold unlink. plain_call. Qed.

Lemma no_errors_subprocess_run cmd check capture :
  no_errors (subprocess_run w cmd check capture).
Proof. intros fs. by rewrite trace_subprocess_run. Qed.

Lemma raises_plain_subprocess_run cmd check :
  raises_plain (subprocess_run w cmd check false).
Proof.
  intros fs e. unfold subprocess_run, res. simpl.
  destruct (exec_tool w cmd fs); simpl.
  - intros [= <-]. split; [done|]. discriminate.
  - destruct (check && negb (returncode =? 0)); simpl; [|discriminate].
    intros [= <-]. split; [done|]. by intros ? ? ? [= _ _ <-].
Qed.

Lemma raises_plain_generate_artwork p : raises_plain (generate_artwork w p).
Proof.
  intros fs e Hr. pose proof (generate_artwork_result w p fs) as H.
  unfold generate_artwork, bind, subprocess_run, res in *. simpl in *.
  destruct (exec_tool w (artwork_cmd w p) fs); simpl in *; [|discriminate].
  injection Hr as <-. split; [done|]. discriminate.
Qed.

Lemma no_errors_generate_artwork p : no_errors (generate_artwork w p).
Proof. intros fs. by rewrite trace_generate_artwork. Qed.

Lemma no_errors_for_each {A} (l : list A) (f : A -> M unit) :
  (forall x, no_errors (f x)) -> no_errors (for_each l f).
Proof. intros Hf. induction l; simpl; [done|]. by apply no_errors_bind. Qed.

Lemma raises_plain_for_each {A} (l : list A) (f : A -> M unit) :
  (forall x, raises_plain (f x)) -> raises_plain (for_each l f).
Proof.
  intros Hf. induction l; simpl; [apply raises_plain_ret|]. by apply raises_plain_bind.
Qed.

Lemma no_errors_frame_cleanup : no_errors (frame_cleanup w).
Proof. intros fs. unfold frame_cleanup. apply no_errors_for_each, no_errors_unlink. Qed.

Lemma raises_plain_frame_cleanup : raises_plain (frame_cleanup w).
Proof. intros fs. unfold frame_cleanup. apply raises_plain_for_each, raises_plain_unlink. Qed.

Lemma no_errors_gif_conversion base : no_errors (gif_conversion w base).
Proof.
  apply no_errors_bind.
  - apply no_errors_bind; [apply no_errors_subprocess_run | intros; apply no_errors_ret].
  - intros a. apply no_errors_bind; [apply no_errors_frame_cleanup | intros; apply no_errors_ret].
Qed.

Lemma raises_plain_gif_conversion base : raises_plain (gif_conversion w base).
Proof.
  apply raises_plain_bind.
  - apply raises_plain_bind;
      [apply raises_plain_subprocess_run | intros; apply raises_plain_ret].
  - intros a. apply raises_plain_bind;
      [apply raises_plain_frame_cleanup | intros; apply raises_plain_ret].
Qed.

Lemma no_errors_download f p : no_errors (download_link w f p).
Proof.
  apply no_errors_bind; [apply no_errors_read_file|]. intros d.
  destruct (PyStr.first_word _); [by apply no_errors_emit | done].
Qed.

Lemma raises_plain_download f p : raises_plain (download_link w f p).
Proof.
  apply raises_plain_bind; [apply raises_plain_read_file|]. intros d.
  destruct (PyStr.first_word _); [apply raises_plain_emit|].
  intros fs e [= <-]. split; [done|]. discriminate.
Qed.

Lemma try_body_unfold f uf :
  try_body w f uf =
    (write_file w (input_path_of w uf) (uf_buffer uf) ;;
     st_image InputPreview (input_path_of w uf) ;;
     command <- generate_artwork w (make_params w f uf) ;;
     present_result w f uf command).
Proof. reflexivity. Qed.

Lemma no_errors_present_result f uf c : no_errors (present_result w f uf c).
Proof.
  apply no_errors_bind.
  - destruct (is_gif f); [apply no_errors_gif_conversion | apply no_errors_ret].
  - intros a. apply no_errors_bind; [apply no_errors_st_image|intros _].
    apply no_errors_bind; [apply no_errors_download|intros _]. by apply no_errors_emit.
Qed.

Lemma raises_plain_present_result f uf c : raises_plain (present_result w f uf c).
Proof.
  apply raises_plain_bind.
  - destruct (is_gif f); [apply raises_plain_gif_conversion | apply raises_plain_ret].
  - intros a. apply raises_plain_bind; [apply raises_plain_st_image|intros _].
    apply raises_plain_bind; [apply raises_plain_download|intros _]. apply raises_plain_emit.
Qed.

Lemma no_errors_try_body f uf : no_errors (try_body w f uf).
Proof.
  rewrite try_body_unfold.
  apply no_errors_bind; [apply no_errors_write_file|intros _].
  apply no_errors_bind; [apply no_errors_st_image|intros _].
  apply no_errors_bind; [apply no_errors_generate_artwork|intros c].
  apply no_errors_present_result.
Qed.

Lemma raises_plain_try_body f uf : raises_plain (try_body w f uf).
Proof.
  rewrite try_body_unfold.
  apply raises_plain_bind; [apply raises_plain_write_file|intros _].
  apply raises_plain_bind; [apply raises_plain_st_image|intros _].
  apply raises_plain_bind; [apply raises_plain_generate_artwork|intros c].
  apply raises_plain_present_result.
Qed.

End Outcomes.

Section Requests.
Variable w : World.

Lemma cleanup_result fs :
  cleanup w fs =
    (Ok tt,
     Path.rmtree_fs (path_sep w) FRAME_DIR (Path.rmtree_fs (path_sep w) INPUT_DIR fs),
     cleanup_calls).
Proof. reflexivity. Qed.

Lemma run_request_unfold f uf fs fs1 :
  validate_environment w = true ->
  setup_directories w fs = (Ok tt, fs1, setup_calls) ->
  let x := try_body w f uf fs1 in
  let y := handled x in
  run_request w f uf fs =
    (res y,
     Path.rmtree_fs (path_sep w) FRAME_DIR (Path.rmtree_fs (path_sep w) INPUT_DIR (final_fs y)),
     (setup_calls ++ trace x ++ trace y ++ cleanup_calls)%list).
Proof.
  intros Hv Hs x y. subst y x. unfold run_request. rewrite Hv. simpl negb. cbv iota.
  rewrite bind_ret_l. unfold bind at 1. rewrite Hs.
  unfold try_except_finally, handled, res, final_fs, trace.
  destruct (try_body w f uf fs1) as [[[[]|e] fs2] t2]; cbn [fst snd].
  - by rewrite cleanup_result.
  - destruct (is_CalledProcessError e).
    + destruct (on_called_process_error e fs2) as [[r3 fs3] t3]. cbn [fst snd].
      by rewrite cleanup_result.
    + destruct (is_Exception e).
      * destruct (on_exception e fs2) as [[r3 fs3] t3]. cbn [fst snd].
        by rewrite cleanup_result.
      * by rewrite cleanup_result.
Qed.

Lemma run_request_parts f uf fs fs1 :
  validate_environment w = true ->
  setup_directories w fs = (Ok tt, fs1, setup_calls) ->
  let x := try_body w f uf fs1 in
  res (run_request w f uf fs) = res (handled x) /\
  final_fs (run_request w f uf fs)
    = Path.rmtree_fs (path_sep w) FRAME_DIR
        (Path.rmtree_fs (path_sep w) INPUT_DIR (final_fs (handled x))) /\
  trace (run_request w f uf fs)
    = (setup_calls ++ trace x ++ trace (handled x) ++ cleanup_calls)%list.
Proof. intros Hv Hs x. subst x. by rewrite (run_request_unfold f uf fs fs1 Hv Hs). Qed.

Lemma handled_cases f uf fs :
  let x := try_body w f uf fs in
  (res x = Ok tt /\ handled x = (Ok tt, final_fs x, [])) \/
  (exists rc cmd, res x = Raise (CalledProcessError rc cmd None) /\
     handled x = (Raise handler_crash, final_fs x, [])) \/
  (exists e, res x = Raise e /\ is_CalledProcessError e = false /\ is_Exception e = true /\
     handled x = (Ok tt, final_fs x, [EError ("❌ Unexpected error: " ++ str_exn e)])).
Proof.
  intros x. subst x. pose proof (raises_plain_try_body w f uf fs) as Hp.
  unfold handled. destruct (res (try_body w f uf fs)) as [[]|e]; [by left|].
  destruct (Hp e eq_refl) as [He Hc]. right.
  destruct e as [rc cmd s| | | | | | |]; try (right; eexists; by repeat split).
  left. rewrite (Hc rc cmd s eq_refl). by exists rc, cmd.
Qed.

Lemma mkdir_working_dir_blocked fs d :
  d = INPUT_DIR \/ d = FRAME_DIR \/ d = OUTPUT_DIR ->
  Path.is_file fs d = true ->
  mkdir_exist_ok w d fs
    = (Raise (FileExistsError ("[Errno 17] File exists: '" ++ d ++ "'")), fs, []).
Proof.
  intros Hd. unfold mkdir_exist_ok, Path.is_file. by destruct (fs !! d) as [[|c]|].
Qed.

Lemma setup_directories_blocked fs :
  ~ dirs_free fs ->
  exists d fs1 t,
    (d = INPUT_DIR \/ d = FRAME_DIR \/ d = OUTPUT_DIR) /\
    Path.is_file fs d = true /\
    setup_directories w fs
      = (Raise (FileExistsError ("[Errno 17] File exists: '" ++ d ++ "'")), fs1, t) /\
    (t = [] \/ t = [EMkdir INPUT_DIR] \/ t = [EMkdir INPUT_DIR; EMkdir FRAME_DIR]) /\
    (forall q, Path.is_dir fs q = true -> Path.is_dir fs1 q = true) /\
    (forall q, Path.is_file fs1 q = Path.is_file fs q) /\
    (d <> INPUT_DIR -> Path.is_dir fs1 INPUT_DIR = true).
Proof.
  intros Hnf. unfold setup_directories, bind.
  destruct (mkdir_working_dir w fs INPUT_DIR) as [[F1 _]|[F1 (fs1 & E1 & D1 & P1 & Q1)]];
    [auto| |].
  { exists INPUT_DIR, fs, []. rewrite (mkdir_working_dir_blocked fs INPUT_DIR) by auto.
    repeat split; auto. }
  rewrite E1.
  destruct (mkdir_working_dir w fs1 FRAME_DIR) as [[F2 _]|[F2 (fs2 & E2 & D2 & P2 & Q2)]];
    [auto| |].
  { exists FRAME_DIR, fs1, [EMkdir INPUT_DIR].
    rewrite (mkdir_working_dir_blocked fs1 FRAME_DIR) by auto.
    rewrite Q1 in F2. repeat split; auto. }
  rewrite E2.
  destruct (mkdir_working_dir w fs2 OUTPUT_DIR) as [[F3 _]|[F3 (fs3 & E3 & D3 & P3 & Q3)]];
    [auto| |].
  { exists OUTPUT_DIR, fs2, [EMkdir INPUT_DIR; EMkdir FRAME_DIR].
    rewrite (mkdir_working_dir_blocked fs2 OUTPUT_DIR) by auto.
    rewrite Q2, Q1 in F3. repeat split; auto.
    intros q. by rewrite Q2, Q1. }
  exfalso. apply Hnf. rewrite Q1 in F2. rewrite Q2, Q1 in F3. done.
Qed.

(** X1.  How a run of the processing logic can end, and what the user is
    told.  It ends normally with no message or with one "Unexpected error"
    message (for an exception that is no [CalledProcessError]); or with
    [StopException] after the missing-dependency message; or with an
    uncaught [FileExistsError] from the directory setup; or with the
    [AttributeError] raised inside the [CalledProcessError] handler.  At
    most one message is shown, and never a "Processing error" one. *)
Theorem request_outcomes (f : Form) (fs : FS) :
  let x := processing w f fs in
  (res x = Ok tt /\ errors (trace x) = []) \/
  (res x = Ok tt /\
     exists e, is_CalledProcessError e = false /\ is_Exception e = true /\
       errors (trace x) = ["❌ Unexpected error: " ++ str_exn e]) \/
  (res x = Raise StopException /\ validate_environment w = false /\
     errors (trace x) = [missing_dependencies_message]) \/
  (exists msg, res x = Raise (FileExistsError msg) /\ ~ dirs_free fs /\
     errors (trace x) = []) \/
  (res x = Raise handler_crash /\ errors (trace x) = []).
Proof.
  intros x. subst x. unfold processing.
  destruct (submitted f); [|by left].
  destruct (uploaded_file f) as [uf|]; [|by left].
  destruct (validate_environment w) eqn:Hv.
  2:{ right. right. left. unfold run_request. rewrite Hv. done. }
  destruct (setup_directories_cases w fs) as [[Hfree (fs1 & Hs & _)]|[Hnf _]].
  - destruct (run_request_parts f uf fs fs1 Hv Hs) as (Hr & _ & Ht).
    rewrite Hr, Ht, !errors_app, (no_errors_try_body w f uf fs1).
    destruct (handled_cases f uf fs1)
      as [[_ ->]|[(rc & cmd & _ & ->)|(e & _ & Hc & He & ->)]].
    + by left.
    + right. right. right. right. done.
    + right. left. split; [done|]. exists e. done.
  - right. right. right. left.
    destruct (setup_directories_blocked fs Hnf) as (d & fs1 & t & _ & _ & Hs & Ht & _).
    eexists. unfold run_request. rewrite Hv. simpl negb. cbv iota. rewrite bind_ret_l.
    unfold bind. rewrite Hs. split; [reflexivity|]. split; [done|].
    unfold trace. cbn [snd]. by destruct Ht as [->|[->| ->]].
Qed.

End Requests.

Section Failures.
Variable w : World.

(** X2.  A request stopped by a regular file in the place of a working
    directory: [setup_directories] runs outside the [try], so the
    [FileExistsError] escapes, the calls made are at most the [mkdir]s before
    the blocked one (no message, no command, no [rmtree]), nothing is
    removed, and the directories made before the blocked one stay
    behind. *)
Theorem blocked_setup_skips_cleanup (f : Form) (uf : UploadedFile) (fs : FS) :
  submitted f = true ->
  uploaded_file f = Some uf ->
  validate_environment w = true ->
  ~ dirs_free fs ->
  let x := processing w f fs in
  exists d,
    (d = INPUT_DIR \/ d = FRAME_DIR \/ d = OUTPUT_DIR) /\
    Path.is_file fs d = true /\
    res x = Raise (FileExistsError ("[Errno 17] File exists: '" ++ d ++ "'")) /\
    (trace x = [] \/ trace x = [EMkdir INPUT_DIR] \/
     trace x = [EMkdir INPUT_DIR; EMkdir FRAME_DIR]) /\
    (forall q, Path.is_dir fs q = true -> Path.is_dir (final_fs x) q = true) /\
    (forall q, Path.is_file (final_fs x) q = Path.is_file fs q) /\
    (d <> INPUT_DIR -> Path.is_dir (final_fs x) INPUT_DIR = true).
Proof.
  intros Hs Hu Hv Hnf x. subst x. rewrite (processing_run_request w f uf fs Hs Hu).
  destruct (setup_directories_blocked w fs Hnf) as (d & fs1 & t & Hd & Hf & Hsetup & Ht & H1 & H2 & H3).
  exists d. unfold run_request. rewrite Hv. simpl negb. cbv iota. rewrite bind_ret_l.
  unfold bind. rewrite Hsetup. unfold res, trace, final_fs. cbn [fst snd]. done.
Qed.

Lemma validate_environment_iff :
  validate_environment w = true <->
  (found w "primitive" = true \/ found w "primitive.exe" = true) /\
  (found w "magick" = true \/ found w "convert" = true).
Proof.
  unfold validate_environment. simpl.
  rewrite !orb_false_r, andb_true_r, andb_true_iff, !orb_true_iff. tauto.
Qed.

(** X3.  The program picked for the conversion is one the environment
    check found, [magick] before [convert].  The program picked for the
    approximation is found too, except when only the other spelling
    ([primitive.exe] off Windows, [primitive] on it) is installed. *)
Theorem checked_tools_and_commands (p : Params) (base : string) :
  validate_environment w = true ->
  found w (hd "" (gif_cmd w base)) = true /\
  (found w "magick" = true -> hd "" (gif_cmd w base) = "magick") /\
  (found w (hd "" (artwork_cmd w p)) = false <->
     if is_nt w
     then found w "primitive.exe" = false /\ found w "primitive" = true
     else found w "primitive" = false /\ found w "primitive.exe" = true).
Proof.
  intros Hv. apply validate_environment_iff in Hv as [Hp Hc].
  assert (hd "" (artwork_cmd w p) = if is_nt w then "primitive.exe" else "primitive") as ->
    by (unfold artwork_cmd; by destruct (is_nt w)).
  unfold gif_cmd. cbn [hd].
  split; [|split].
  - destruct (found w "magick") eqn:E; [done|]. by destruct Hc.
  - by intros ->.
  - destruct (is_nt w); split.
    + intros H. split; [done|]. destruct Hp as [Hp|Hp]; [done|congruence].
    + by intros [? _].
    + intros H. split; [done|]. destruct Hp as [Hp|Hp]; [congruence|done].
    + by intros [? _].
Qed.

End Failures.

Section Paths.
Variable w : World.

Lemma occurs_false_split_last c s : occurs c s = false -> PyStr.split_last c s = None.
Proof.
  induction s as [|a s IH]; simpl; [done|].
  intros H. apply orb_false_iff in H as [Ha Hs]. by rewrite (IH Hs), Ha.
Qed.

Lemma split_last_join c d n :
  occurs c n = false -> PyStr.split_last c (d ++ String c n) = Some (d, n).
Proof.
  intros Hn. induction d as [|a d IH]; simpl.
  - by rewrite (occurs_false_split_last c n Hn), Ascii.eqb_refl.
  - by rewrite IH.
Qed.

Lemma name_join sep d n : occurs sep n = false -> Path.name sep (d ++ String sep n) = n.
Proof. intros Hn. unfold Path.name. by rewrite split_last_join. Qed.

Lemma occurs_stem_suffix p suf :
  occurs "/" suf = false -> occurs "\" suf = false ->
  occurs (path_sep w) (Path.stem (path_sep w) p ++ suf) = false.
Proof.
  intros H1 H2. rewrite occurs_app, stem_no_sep.
  by destruct (sep_cases w) as [-> | ->].
Qed.

Lemma output_path_literal uf :
  output_path_of w uf
  = OUTPUT_DIR ++ String (path_sep w) (base_name_of w uf ++ "_result.png").
Proof. unfold output_path_of, base_name_of. by apply joinpath_stem. Qed.

Lemma gif_path_literal uf :
  Path.joinpath (path_sep w) OUTPUT_DIR (base_name_of w uf ++ "_animation.gif")
  = OUTPUT_DIR ++ String (path_sep w) (base_name_of w uf ++ "_animation.gif").
Proof. unfold base_name_of. by apply joinpath_stem. Qed.

Lemma input_path_literal uf :
  plain_name (path_sep w) (uf_name uf) ->
  input_path_of w uf = INPUT_DIR ++ String (path_sep w) (uf_name uf).
Proof. intros [Hne Ho]. unfold input_path_of. apply joinpath_relative; auto. Qed.

(** X4.  The names under which files travel: the result image and the
    animation are named after the stem of the upload, whatever the upload
    is called, and that name is what the download link offers
    ([final_output.name]); an upload with a one-component name is stored
    under that very name in the input staging directory. *)
Theorem artifact_names (uf : UploadedFile) :
  Path.name (path_sep w) (output_path_of w uf)
    = Path.stem (path_sep w) (uf_name uf) ++ "_result.png" /\
  Path.name (path_sep w)
      (Path.joinpath (path_sep w) OUTPUT_DIR (base_name_of w uf ++ "_animation.gif"))
    = Path.stem (path_sep w) (uf_name uf) ++ "_animation.gif" /\
  PyStr.split_last (path_sep w) (output_path_of w uf)
    = Some (OUTPUT_DIR, Path.stem (path_sep w) (uf_name uf) ++ "_result.png") /\
  (plain_name (path_sep w) (uf_name uf) ->
     PyStr.split_last (path_sep w) (input_path_of w uf) = Some (INPUT_DIR, uf_name uf) /\
     Path.stem (path_sep w) (input_path_of w uf) = Path.stem (path_sep w) (uf_name uf)).
Proof.
  rewrite output_path_literal, gif_path_literal. unfold base_name_of.
  split; [|split; [|split]].
  - by apply name_join, occurs_stem_suffix.
  - by apply name_join, occurs_stem_suffix.
  - by apply split_last_join, occurs_stem_suffix.
  - intros Hp. rewrite (input_path_literal uf Hp). destruct Hp as [Hne Ho].
    split; [by apply split_last_join|].
    unfold Path.stem. rewrite (name_join _ _ _ Ho).
    unfold Path.name. by rewrite (occurs_false_split_last _ _ Ho).
Qed.

End Paths.

Section Paths2.
Variable w : World.

Lemma mkdir_working_dir_ok fs d :
  d = INPUT_DIR \/ d = FRAME_DIR \/ d = OUTPUT_DIR ->
  Path.is_file fs d = false ->
  mkdir_exist_ok w d fs = (Ok tt, mkdir_fs d fs, [EMkdir d]).
Proof.
  intros Hd. unfold mkdir_exist_ok, mkdir_fs, Path.is_file.
  rewrite (working_dir_top_level w fs d Hd). by destruct (fs !! d) as [[|c]|].
Qed.

Lemma mkdir_fs_lookup d fs q : q <> d -> mkdir_fs d fs !! q = fs !! q.
Proof.
  intros Hq. unfold mkdir_fs. destruct (fs !! d); [done|]. by rewrite lookup_insert_ne.
Qed.

Lemma mkdir_fs_is_file d fs q : Path.is_file (mkdir_fs d fs) q = Path.is_file fs q.
Proof.
  unfold mkdir_fs, Path.is_file. destruct (fs !! d) eqn:E; [done|].
  destruct (decide (d = q)) as [<-|]; [by rewrite lookup_insert_eq, E|].
  by rewrite lookup_insert_ne.
Qed.

Lemma mkdir_fs_is_dir d fs : Path.is_file fs d = false -> Path.is_dir (mkdir_fs d fs) d = true.
Proof.
  unfold mkdir_fs, Path.is_file, Path.is_dir. destruct (fs !! d) as [[|c]|] eqn:E.
  - by rewrite E.
  - done.
  - by rewrite lookup_insert_eq.
Qed.

Lemma setup_directories_ok fs :
  dirs_free fs -> setup_directories w fs = (Ok tt, setup_fs fs, setup_calls).
Proof.
  intros (F1 & F2 & F3). unfold setup_directories, setup_fs, bind.
  rewrite (mkdir_working_dir_ok fs INPUT_DIR) by auto.
  rewrite (mkdir_working_dir_ok _ FRAME_DIR) by (by rewrite ?mkdir_fs_is_file; auto).
  rewrite (mkdir_working_dir_ok _ OUTPUT_DIR) by (by rewrite ?mkdir_fs_is_file; auto).
  done.
Qed.

Lemma setup_fs_lookup fs q :
  q <> INPUT_DIR -> q <> FRAME_DIR -> q <> OUTPUT_DIR -> setup_fs fs !! q = fs !! q.
Proof. intros. unfold setup_fs. by rewrite !mkdir_fs_lookup. Qed.

Lemma setup_fs_dirs fs : dirs_free fs -> dirs_exist (setup_fs fs).
Proof.
  intros Hf. destruct (setup_directories_cases w fs) as [[_ (fs1 & Hs & Hd)]|[Hn _]]; [|done].
  rewrite (setup_directories_ok fs Hf) in Hs. by injection Hs as <-.
Qed.

Lemma bind_Ok {A B} (m : M A) (k : A -> M B) fs a fs1 t1 :
  m fs = (Ok a, fs1, t1) ->
  bind m k fs = (res (k a fs1), final_fs (k a fs1), (t1 ++ trace (k a fs1))%list).
Proof. intros H. unfold bind, res, final_fs, trace. rewrite H. by destruct (k a fs1) as [[? ?] ?]. Qed.

Lemma try_body_after_artwork f uf fs rc out err b' :
  let ip := input_path_of w uf in
  let b := <[ip := File (uf_buffer uf)]> fs in
  let art := artwork_cmd w (make_params w f uf) in
  fs !! ip <> Some Dir ->
  Path.parent_is_dir (path_sep w) fs ip = true ->
  exec_tool w art b = Exited rc out err b' ->
  let z := present_result w f uf (PyStr.join " " art) b' in
  try_body w f uf fs =
    (res z, final_fs z,
     ([EWrite ip (uf_buffer uf); EImage InputPreview ip; ERun art b] ++ trace z)%list).
Proof.
  intros ip b art Hnd Hpar Hex z. subst z.
  rewrite try_body_unfold. fold ip. fold art.
  assert (write_file w ip (uf_buffer uf) fs = (Ok tt, b, [EWrite ip (uf_buffer uf)])) as Hw.
  { unfold write_file. rewrite Hpar. by destruct (fs !! ip) as [[|c]|]. }
  assert (st_image InputPreview ip b = (Ok tt, b, [EImage InputPreview ip])) as Hi.
  { unfold st_image, b. by rewrite written_file_is_file. }
  assert (generate_artwork w (make_params w f uf) b
          = (Ok (PyStr.join " " art), b', [ERun art b])) as Hg.
  { unfold generate_artwork, bind, subprocess_run. fold art. by rewrite Hex. }
  rewrite (bind_Ok _ _ _ _ _ _ Hw), (bind_Ok _ _ _ _ _ _ Hi), (bind_Ok _ _ _ _ _ _ Hg).
  unfold res, final_fs, trace. by cbn [fst snd app].
Qed.

Lemma try_body_upload_rejected f uf fs :
  (fs !! input_path_of w uf = Some Dir \/
   Path.parent_is_dir (path_sep w) fs (input_path_of w uf) = false) ->
  trace (try_body w f uf fs) = [].
Proof.
  intros H. rewrite try_body_unfold.
  destruct (write_file_result w (input_path_of w uf) (uf_buffer uf) fs) as [[e Hw]|[Hnd Hw]].
  - by rewrite (trace_bind_Raise _ _ _ _ _ _ Hw).
  - exfalso. destruct H as [H|H]; [done|]. unfold write_file in Hw. rewrite H in Hw.
    by destruct (fs !! input_path_of w uf) as [[|c]|].
Qed.




Lemma rmtree_fs_lookup sep d fs p :
  negb (String.eqb p d) && negb (Path.below sep d p) = true ->
  Path.rmtree_fs sep d fs !! p = fs !! p.
Proof.
  intros Hp. unfold Path.rmtree_fs. destruct (Path.is_dir fs d); [|done].
  destruct (fs !! p) as [n|] eqn:E.
  - apply map_lookup_filter_Some. done.
  - apply map_lookup_filter_None. by left.
Qed.

Lemma rmtree_fs_gone sep d fs p :
  Path.is_dir fs d = true ->
  negb (String.eqb p d) && negb (Path.below sep d p) = false ->
  Path.rmtree_fs sep d fs !! p = None.
Proof.
  intros Hd Hp. unfold Path.rmtree_fs. rewrite Hd.
  apply map_lookup_filter_None. right. intros n _. simpl. by rewrite Hp.
Qed.



End Paths2.

Section EndToEnd.
Variable w : World.





End EndToEnd.

Section EndToEndGif.
Variable w : World.



Lemma gif_conversion_failed base (fs fs1 : FS) rc out err :
  exec_tool w (gif_cmd w base) fs = Exited rc out err fs1 ->
  rc <> 0 ->
  gif_conversion w base fs
    = (Raise (CalledProcessError rc (gif_cmd w base) None), fs1, [ERun (gif_cmd w base) fs]).
Proof.
  intros Hex Hrc. unfold gif_conversion, create_gif, bind, subprocess_run. rewrite Hex.
  apply Z.eqb_neq in Hrc. by rewrite Hrc.
Qed.

Lemma bind_Raise {A B} (m : M A) (k : A -> M B) fs e fs1 t1 :
  m fs = (Raise e, fs1, t1) -> bind m k fs = (Raise e, fs1, t1).
Proof. intros H. unfold bind. by rewrite H. Qed.


End EndToEndGif.

Section ToolFailures.
Variable w : World.

Lemma run_request_reached f uf fs :
  runs (trace (run_request w f uf fs)) <> [] ->
  validate_environment w = true /\ dirs_free fs /\
  runs (trace (run_request w f uf fs)) = runs (trace (try_body w f uf (setup_fs fs))).
Proof.
  intros Hne.
  destruct (run_request_cases w f uf fs)
    as [[H _]|(Hv & Hfree & fs1 & fs2 & th & Hs & _ & Ht & Hth & _)]; [done|].
  split; [done|]. split; [done|].
  rewrite (setup_directories_ok w fs Hfree) in Hs. injection Hs as <-.
  rewrite Ht, !runs_app, Hth. simpl. by rewrite app_nil_r.
Qed.

Lemma try_body_ran f uf fs :
  runs (trace (try_body w f uf fs)) <> [] ->
  fs !! input_path_of w uf <> Some Dir /\
  Path.parent_is_dir (path_sep w) fs (input_path_of w uf) = true.
Proof.
  intros Hne. split.
  - intros H. by rewrite try_body_upload_rejected in Hne by (by left).
  - destruct (Path.parent_is_dir _ _ _) eqn:E; [done|].
    by rewrite try_body_upload_rejected in Hne by (by right).
Qed.

(** X7.  A conversion tool that exits with a non-zero status: the
    [CalledProcessError] has no captured stream, so its handler raises
    [AttributeError]; the request ends with that exception, no message is
    shown, the run stops right after the conversion call (no frame is
    unlinked, nothing is shown or offered), and the cleanup still runs, on
    the file system the tool left. *)
Theorem failed_conversion_crashes_handler
    (f : Form) (uf : UploadedFile) (fs b b2 : FS) (rc : Z) (out err : string) :
  let gifc := gif_cmd w (base_name_of w uf) in
  let x := processing w f fs in
  submitted f = true ->
  uploaded_file f = Some uf ->
  ERun gifc b ∈ trace x ->
  exec_tool w gifc b = Exited rc out err b2 ->
  rc <> 0 ->
  res x = Raise handler_crash /\
  errors (trace x) = [] /\
  final_fs x
    = Path.rmtree_fs (path_sep w) FRAME_DIR (Path.rmtree_fs (path_sep w) INPUT_DIR b2) /\
  exists t, trace x = (t ++ ERun gifc b :: cleanup_calls)%list /\
            forall p, EUnlink p ∉ t.
Proof.
  intros gifc x Hs Hu Hin Hex Hrc. subst x.
  rewrite (processing_run_request w f uf fs Hs Hu) in *.
  apply elem_of_runs in Hin.
  destruct (run_request_reached f uf fs) as (Hv & Hfree & Hruns).
  { intros H. rewrite H in Hin. by apply elem_of_nil in Hin. }
  rewrite Hruns in Hin.
  destruct (try_body_ran f uf (setup_fs fs)) as [Hn Hpar].
  { intros H. rewrite H in Hin. by apply elem_of_nil in Hin. }
  pose proof (is_convert_artwork_cmd w (make_params w f uf)) as Hca.
  pose proof (is_convert_gif_cmd w (base_name_of w uf)) as Hcg. fold gifc in Hcg.
  destruct (try_body_runs w f uf (setup_fs fs))
    as [He|[_ [[He _]|(rc0 & out0 & err0 & b' & Hex0 & Hg & He)]]];
    rewrite He in Hin.
  { by apply elem_of_nil in Hin. }
  { apply list_elem_of_singleton in Hin. apply (f_equal fst) in Hin. cbn [fst] in Hin.
    rewrite Hin in Hcg. congruence. }
  apply elem_of_cons in Hin as [Hin|Hin].
  { apply (f_equal fst) in Hin. cbn [fst] in Hin. rewrite Hin in Hcg. congruence. }
  apply list_elem_of_singleton in Hin. apply (f_equal snd) in Hin. cbn [snd] in Hin. subst b'.
  pose proof (try_body_after_artwork w f uf (setup_fs fs) rc0 out0 err0 b Hn Hpar Hex0) as Hb.
  cbv zeta in Hb.
  assert (present_result w f uf
            (PyStr.join " " (artwork_cmd w (make_params w f uf))) b
          = (Raise (CalledProcessError rc gifc None), b2, [ERun gifc b])) as Hpres.
  { unfold present_result. rewrite Hg.
    by rewrite (bind_Raise _ _ _ _ _ _ (gif_conversion_failed w _ b b2 rc out err Hex Hrc)). }
  rewrite Hpres in Hb. unfold res, final_fs, trace in Hb. cbn [fst snd] in Hb.
  rewrite (run_request_unfold w f uf fs _ Hv (setup_directories_ok w fs Hfree)).
  rewrite Hb. unfold handled, res, final_fs, trace. cbn [fst snd app].
  split; [done|]. split; [done|]. split; [done|].
  eexists (setup_calls ++ [_; _; _])%list. split.
  - by rewrite <- app_assoc.
  - intros p Hp. unfold setup_calls in Hp.
    repeat (apply elem_of_cons in Hp as [Hp|Hp]; [discriminate|]).
    by apply elem_of_nil in Hp.
Qed.


End ToolFailures.

Section Staging.
Variable w : World.

(** The tools leave the working directories in place. *)
Hypothesis tools_keep_dirs :
  forall cmd b rc out err b',
    exec_tool w cmd b = Exited rc out err b' -> dirs_exist b -> dirs_exist b'.

Lemma keeps_ret {A} I (a : A) : keeps I (ret a).
Proof. by intros fs. Qed.

Lemma keeps_raise {A} I e : keeps I (@raise A e).
Proof. by intros fs. Qed.

Lemma keeps_emit I e : keeps I (emit e).
Proof. by intros fs. Qed.

Lemma keeps_write_file p d : keeps dirs_exist (write_file w p d).
Proof.
  intros fs HI. destruct (write_file_result w p d fs) as [[e ->]|[Hn ->]]; [done|].
  by apply dirs_exist_insert_file.
Qed.

Lemma keeps_st_image s p : keeps dirs_exist (st_image s p).
Proof. intros fs HI. by destruct (st_image_result s p fs) as [[e ->]| ->]. Qed.

Lemma keeps_read_file p : keeps dirs_exist (read_file p).
Proof. intros fs HI. unfold read_file. by destruct (fs !! p) as [[|c]|]. Qed.

Lemma dirs_exist_delete_file (fs : FS) p c :
  fs !! p = Some (File c) -> dirs_exist fs -> dirs_exist (delete p fs).
Proof.
  intros Hp (H1 & H2 & H3). unfold dirs_exist, Path.is_dir in *.
  assert (forall q, match fs !! q with Some Dir => true | _ => false end = true ->
                    match delete p fs !! q with Some Dir => true | _ => false end = true) as H.
  { intros q Hq. destruct (decide (p = q)) as [<-|]; [by rewrite Hp in Hq|].
    by rewrite lookup_delete_ne. }
  auto.
Qed.

Lemma keeps_unlink p : keeps dirs_exist (unlink p).
Proof.
  intros fs HI. unfold unlink. destruct (fs !! p) as [[|c]|] eqn:E; try done.
  by apply (dirs_exist_delete_file fs p c).
Qed.

Lemma keeps_for_each {A} I (l : list A) (f : A -> M unit) :
  (forall x, keeps I (f x)) -> keeps I (for_each l f).
Proof. intros Hf. induction l; simpl; [apply keeps_ret|]. by apply keeps_bind. Qed.

Lemma keeps_frame_cleanup : keeps dirs_exist (frame_cleanup w).
Proof. intros fs. unfold frame_cleanup. apply keeps_for_each, keeps_unlink. Qed.

Lemma keeps_subprocess_run cmd check capture :
  keeps dirs_exist (subprocess_run w cmd check capture).
Proof.
  intros fs HI. unfold subprocess_run.
  destruct (exec_tool w cmd fs) as [|rc out err b'] eqn:E; [done|].
  pose proof (tools_keep_dirs _ _ _ _ _ _ E HI).
  by destruct (check && negb (rc =? 0)).
Qed.

Lemma keeps_try_body f uf : keeps dirs_exist (try_body w f uf).
Proof.
  rewrite try_body_unfold.
  apply keeps_bind; [apply keeps_write_file|intros _].
  apply keeps_bind; [apply keeps_st_image|intros _].
  apply keeps_bind.
  { apply keeps_bind; [apply keeps_subprocess_run|intros; apply keeps_ret]. }
  intros c. apply keeps_bind.
  { destruct (is_gif f); [|apply keeps_ret].
    apply keeps_bind.
    - apply keeps_bind; [apply keeps_subprocess_run|intros; apply keeps_ret].
    - intros a. apply keeps_bind; [apply keeps_frame_cleanup|intros; apply keeps_ret]. }
  intros a. apply keeps_bind; [apply keeps_st_image|intros _].
  apply keeps_bind; [|intros; apply keeps_emit].
  apply keeps_bind; [apply keeps_read_file|intros d].
  destruct (PyStr.first_word _); [apply keeps_emit|apply keeps_raise].
Qed.

Lemma rmtree_fs_None sep d (fs : FS) p : fs !! p = None -> Path.rmtree_fs sep d fs !! p = None.
Proof.
  intros H. unfold Path.rmtree_fs. destruct (Path.is_dir fs d); [|done].
  apply map_lookup_filter_None. by left.
Qed.

Lemma below_join sep d n : Path.below sep d (d ++ String sep n) = true.
Proof.
  unfold Path.below. induction d as [|a d IH]; simpl.
  - destruct (ascii_dec sep sep); [by destruct n|done].
  - by destruct (ascii_dec a a).
Qed.

Lemma frame_dir_outside_input :
  negb (String.eqb FRAME_DIR INPUT_DIR) && negb (Path.below (path_sep w) INPUT_DIR FRAME_DIR)
  = true.
Proof. by destruct (sep_cases w) as [-> | ->]. Qed.

Lemma final_fs_handled f uf fs :
  final_fs (handled (try_body w f uf fs)) = final_fs (try_body w f uf fs).
Proof.
  destruct (handled_cases w f uf fs) as [[_ ->]|[(rc & cmd & _ & ->)|(e & _ & _ & _ & ->)]];
    done.
Qed.

(** X9.  With tools that leave the working directories in place, a request
    that got past the directory setup leaves nothing at or below the two
    staging directories, the upload included, whichever way the [try] block
    ended; every other path is as the [try] block left it. *)
Theorem staging_wiped (f : Form) (uf : UploadedFile) (fs : FS) :
  submitted f = true ->
  uploaded_file f = Some uf ->
  validate_environment w = true ->
  dirs_free fs ->
  let x := processing w f fs in
  let staged p :=
    String.eqb p INPUT_DIR || Path.below (path_sep w) INPUT_DIR p ||
    String.eqb p FRAME_DIR || Path.below (path_sep w) FRAME_DIR p in
  (forall p, staged p = true -> final_fs x !! p = None) /\
  (forall p, staged p = false ->
     final_fs x !! p = final_fs (try_body w f uf (setup_fs fs)) !! p) /\
  (plain_name (path_sep w) (uf_name uf) -> final_fs x !! input_path_of w uf = None).
Proof.
  intros Hs Hu Hv Hfree x staged. subst x.
  rewrite (processing_run_request w f uf fs Hs Hu).
  destruct (run_request_parts w f uf fs _ Hv (setup_directories_ok w fs Hfree)) as (_ & -> & _).
  rewrite final_fs_handled.
  pose proof (keeps_try_body f uf (setup_fs fs) (setup_fs_dirs w fs Hfree)) as (D1 & D2 & _).
  set (fs2 := final_fs (try_body w f uf (setup_fs fs))) in *.
  assert (forall p, staged p = true ->
            Path.rmtree_fs (path_sep w) FRAME_DIR
              (Path.rmtree_fs (path_sep w) INPUT_DIR fs2) !! p = None) as Hgone.
  { intros p Hp. unfold staged in Hp.
    destruct (String.eqb p INPUT_DIR || Path.below (path_sep w) INPUT_DIR p) eqn:E1.
    - apply rmtree_fs_None, rmtree_fs_gone; [done|].
      apply orb_true_iff in E1 as [-> | ->]; [done|]. by rewrite andb_false_r.
    - simpl in Hp. apply rmtree_fs_gone.
      + unfold Path.is_dir. rewrite rmtree_fs_lookup by apply frame_dir_outside_input. done.
      + apply orb_true_iff in Hp as [-> | ->]; [done|]. by rewrite andb_false_r. }
  split; [done|]. split.
  - intros p Hp. unfold staged in Hp.
    apply orb_false_iff in Hp as [Hp H4]. apply orb_false_iff in Hp as [Hp H3].
    apply orb_false_iff in Hp as [H1 H2].
    rewrite !rmtree_fs_lookup; [done| |]; by rewrite ?H1, ?H2, ?H3, ?H4.
  - intros Hp. apply Hgone. unfold staged. rewrite (input_path_literal w uf Hp).
    by rewrite below_join, orb_true_r.
Qed.

End Staging.

Section MoreFailures.
Variable w : World.

Lemma for_each_unlink_directory (l : list string) (fs : FS) :
  NoDup l ->
  (forall p, p ∈ l -> is_Some (fs !! p)) ->
  (exists p, p ∈ l /\ Path.is_dir fs p = true) ->
  exists l1 p l2 fs',
    l = (l1 ++ p :: l2)%list /\
    Forall (fun q => Path.is_file fs q = true) l1 /\
    Path.is_dir fs p = true /\
    for_each l unlink fs
      = (Raise (IsADirectoryError ("[Errno 21] Is a directory: '" ++ p ++ "'")), fs',
         map EUnlink l1) /\
    (forall q, q ∈ l1 -> fs' !! q = None) /\
    (forall q, q ∉ l1 -> fs' !! q = fs !! q).
Proof.
  revert fs. induction l as [|x l IH]; intros fs Hnd Hsome Hdir.
  { destruct Hdir as (p & Hp & _). by apply elem_of_nil in Hp. }
  apply NoDup_cons in Hnd as [Hx Hnd].
  destruct (fs !! x) as [[|c]|] eqn:E.
  - exists [], x, l, fs. split; [done|]. split; [constructor|].
    unfold Path.is_dir. rewrite E. split; [done|]. split.
    + simpl. unfold bind, unlink. by rewrite E.
    + split; [|done]. intros q Hq. by apply elem_of_nil in Hq.
  - destruct (IH (delete x fs) Hnd) as (l1 & p & l2 & fs' & -> & Hfiles & Hp & Hrun & Hgone & Hkeep).
    { intros p Hp. rewrite lookup_delete_ne; [apply Hsome; by right|]. by intros ->. }
    { destruct Hdir as (p & Hp & Hd). exists p.
      apply elem_of_cons in Hp as [->|Hp].
      - unfold Path.is_dir in Hd. by rewrite E in Hd.
      - split; [done|]. unfold Path.is_dir. rewrite lookup_delete_ne; [done|]. by intros ->. }
    assert (forall q, q <> x -> Path.is_file (delete x fs) q = Path.is_file fs q) as Hf.
    { intros q Hq. unfold Path.is_file. by rewrite lookup_delete_ne. }
    exists (x :: l1), p, l2, fs'. split; [done|]. split.
    { constructor; [unfold Path.is_file; by rewrite E|].
      apply Forall_forall. intros q Hq. rewrite <- Hf.
      - by apply (proj1 (Forall_forall _ _) Hfiles).
      - intros ->. apply Hx. apply elem_of_app. by left. }
    split.
    { unfold Path.is_dir in *. rewrite lookup_delete_ne in Hp; [done|].
      intros <-. apply Hx. apply elem_of_app. right. by left. }
    split.
    { simpl. unfold bind. unfold unlink at 1. by rewrite E, Hrun. }
    split.
    + intros q Hq. apply elem_of_cons in Hq as [->|Hq]; [|by apply Hgone].
      rewrite Hkeep; [apply lookup_delete_eq|].
      intros Hin. apply Hx. apply elem_of_app. by left.
    + intros q Hq. apply not_elem_of_cons in Hq as [Hqx Hq].
      rewrite Hkeep by done. by apply lookup_delete_ne.
  - destruct (Hsome x) as [n Hn]; [by left|]. by rewrite E in Hn.
Qed.

(** X10.  The frame loop meets a directory.  When an entry of the frame
    directory matching [*.png] is a directory, the loop unlinks the frame
    files listed before the first such entry and then stops with
    [IsADirectoryError] for it: the entries from there on stay, and nothing
    else changes. *)
Theorem frame_cleanup_stops_at_directory (fs : FS) :
  let frames := Path.glob_png (path_sep w) fs FRAME_DIR in
  (exists p, p ∈ frames /\ Path.is_dir fs p = true) ->
  exists l1 p l2 fs',
    frames = (l1 ++ p :: l2)%list /\
    Forall (fun q => Path.is_file fs q = true) l1 /\
    Path.is_dir fs p = true /\
    frame_cleanup w fs
      = (Raise (IsADirectoryError ("[Errno 21] Is a directory: '" ++ p ++ "'")), fs',
         map EUnlink l1) /\
    (forall q, q ∈ l1 -> fs' !! q = None) /\
    (forall q, q ∉ l1 -> fs' !! q = fs !! q).
Proof.
  intros frames Hdir. unfold frame_cleanup. fold frames.
  apply for_each_unlink_directory; [apply NoDup_glob_png| |done].
  intros p Hp. by apply elem_of_glob_png in Hp as (_ & ? & _).
Qed.

(** X11.  The approximation tool cannot be started.  The
    [FileNotFoundError] of [subprocess.run] is caught by the general
    handler: the request ends normally with the one message "Unexpected
    error" naming the missing program, the conversion tool is not called,
    nothing is shown or offered, and the cleanup runs. *)
Theorem unstartable_tool_reported (f : Form) (uf : UploadedFile) (fs b : FS) :
  let art := artwork_cmd w (make_params w f uf) in
  let x := processing w f fs in
  submitted f = true ->
  uploaded_file f = Some uf ->
  ERun art b ∈ trace x ->
  exec_tool w art b = NotFound ->
  res x = Ok tt /\
  errors (trace x)
    = ["❌ Unexpected error: [Errno 2] No such file or directory: '"
         ++ (if is_nt w then "primitive.exe" else "primitive") ++ "'"] /\
  runs (trace x) = [(art, b)] /\
  b = <[input_path_of w uf := File (uf_buffer uf)]> (setup_fs fs) /\
  final_fs x
    = Path.rmtree_fs (path_sep w) FRAME_DIR (Path.rmtree_fs (path_sep w) INPUT_DIR b).
Proof.
  intros art x Hs Hu Hin Hex. subst x.
  rewrite (processing_run_request w f uf fs Hs Hu) in *.
  apply elem_of_runs in Hin.
  destruct (run_request_reached w f uf fs) as (Hv & Hfree & Hruns).
  { intros H. rewrite H in Hin. by apply elem_of_nil in Hin. }
  rewrite Hruns in *.
  destruct (try_body_ran w f uf (setup_fs fs)) as [Hn Hpar].
  { intros H. rewrite H in Hin. by apply elem_of_nil in Hin. }
  pose proof (is_convert_artwork_cmd w (make_params w f uf)) as Hca. fold art in Hca.
  pose proof (is_convert_gif_cmd w (base_name_of w uf)) as Hcg.
  assert (b = <[input_path_of w uf := File (uf_buffer uf)]> (setup_fs fs)) as ->.
  { destruct (try_body_runs w f uf (setup_fs fs))
      as [He|[_ [[He _]|(rc0 & out0 & err0 & b' & Hex0 & Hg & He)]]];
      rewrite He in Hin.
    - by apply elem_of_nil in Hin.
    - apply list_elem_of_singleton in Hin. by apply (f_equal snd) in Hin.
    - apply elem_of_cons in Hin as [Hin|Hin]; [by apply (f_equal snd) in Hin|].
      apply list_elem_of_singleton in Hin. apply (f_equal fst) in Hin. cbn [fst] in Hin.
      rewrite <- Hin in Hcg. congruence. }
  set (b := <[input_path_of w uf := File (uf_buffer uf)]> (setup_fs fs)) in *.
  assert (try_body w f uf (setup_fs fs) =
            (Raise (FileNotFoundError
                      ("[Errno 2] No such file or directory: '" ++ hd "" art ++ "'")),
             b, [EWrite (input_path_of w uf) (uf_buffer uf);
                 EImage InputPreview (input_path_of w uf); ERun art b])) as Hb.
  { rewrite try_body_unfold.
    assert (write_file w (input_path_of w uf) (uf_buffer uf) (setup_fs fs)
            = (Ok tt, b, [EWrite (input_path_of w uf) (uf_buffer uf)])) as Hw.
    { unfold write_file. rewrite Hpar.
      by destruct (setup_fs fs !! input_path_of w uf) as [[|c]|]. }
    assert (st_image InputPreview (input_path_of w uf) b
            = (Ok tt, b, [EImage InputPreview (input_path_of w uf)])) as Hi.
    { unfold st_image, b. by rewrite written_file_is_file. }
    assert (generate_artwork w (make_params w f uf) b
            = (Raise (FileNotFoundError
                        ("[Errno 2] No such file or directory: '" ++ hd "" art ++ "'")),
               b, [ERun art b])) as Hg.
    { unfold generate_artwork, bind, subprocess_run. fold art. by rewrite Hex. }
    rewrite (bind_Ok _ _ _ _ _ _ Hw), (bind_Ok _ _ _ _ _ _ Hi), (bind_Raise _ _ _ _ _ _ Hg).
    unfold res, final_fs, trace. by cbn [fst snd app]. }
  assert (hd "" art = if is_nt w then "primitive.exe" else "primitive") as Hprog
    by (unfold art, artwork_cmd; by destruct (is_nt w)).
  rewrite Hprog in Hb.
  rewrite (run_request_unfold w f uf fs _ Hv (setup_directories_ok w fs Hfree)).
  rewrite Hb. unfold handled, res, final_fs, trace. cbn [fst snd app].
  unfold is_CalledProcessError, is_Exception, on_exception, st_error, emit. cbn [fst snd].
  repeat split; done.
Qed.

End MoreFailures.

Section SetupAndForm.
Variable w : World.

Lemma mkdir_fs_idem d fs : mkdir_fs d (mkdir_fs d fs) = mkdir_fs d fs.
Proof.
  unfold mkdir_fs. destruct (fs !! d) eqn:E; [by rewrite E|]. by rewrite lookup_insert_eq.
Qed.

(** X12.  What the directory setup changes.  When no regular file is in
    the way it makes the missing ones of the three directories and changes
    nothing else: every other path, also one inside a directory that was
    already there, keeps what it had; and a second setup right after it
    succeeds and changes nothing. *)
Theorem setup_adds_only_directories (fs : FS) :
  dirs_free fs ->
  exists fs1,
    setup_directories w fs = (Ok tt, fs1, setup_calls) /\
    dirs_exist fs1 /\
    (forall q, q <> INPUT_DIR -> q <> FRAME_DIR -> q <> OUTPUT_DIR -> fs1 !! q = fs !! q) /\
    (forall d, (d = INPUT_DIR \/ d = FRAME_DIR \/ d = OUTPUT_DIR) ->
       is_Some (fs !! d) -> fs1 !! d = fs !! d) /\
    setup_directories w fs1 = (Ok tt, fs1, setup_calls).
Proof.
  intros Hfree. exists (setup_fs fs).
  pose proof (setup_fs_dirs w fs Hfree) as Hd.
  split; [by apply setup_directories_ok|]. split; [done|].
  split; [intros; by apply setup_fs_lookup|]. split.
  - intros d Hd' [n Hn]. unfold setup_fs.
    assert (forall d' fs0, fs0 !! d = Some n -> mkdir_fs d' fs0 !! d = Some n) as Hk.
    { intros d' fs0 H0. unfold mkdir_fs. destruct (fs0 !! d') eqn:E; [done|].
      rewrite lookup_insert_ne; [done|]. intros ->. by rewrite E in H0. }
    rewrite Hn. by repeat apply Hk.
  - destruct Hd as (H1 & H2 & H3). unfold Path.is_dir in *.
    unfold setup_directories, bind, mkdir_exist_ok.
    destruct (setup_fs fs !! INPUT_DIR) as [[|?]|]; try done.
    destruct (setup_fs fs !! FRAME_DIR) as [[|?]|]; try done.
    destruct (setup_fs fs !! OUTPUT_DIR) as [[|?]|]; done.
Qed.

Lemma before_equals_code code rest :
  occurs "=" code = false -> before_equals (code ++ String "=" rest) = code.
Proof.
  induction code as [|a code IH]; simpl; [done|].
  intros H. apply orb_false_iff in H as [Ha Hc]. by rewrite Ha, (IH Hc).
Qed.

(** X13.  The shape mode handed to [-m].  What stands before the first [=]
    of a label is cut out, and for the entries of the select box this is the
    decimal number of the entry: the nine entries give the modes 0 to 8, the
    preselected entry (index 1) the mode 1. *)
Theorem mode_of_select_box :
  (forall code rest, occurs "=" code = false ->
     mode_of_option (code ++ String "=" rest) = code) /\
  (forall i label, mode_options !! i = Some label ->
     mode_of_option label = PyStr.str_int (Z.of_nat i)) /\
  length mode_options = 9%nat /\
  mode_of_option <$> mode_options !! 1%nat = Some "1".
Proof.
  split; [apply before_equals_code|]. split; [|done].
  intros i label H.
  do 9 (destruct i as [|i]; [by injection H as <-|]). done.
Qed.

End SetupAndForm.

(** ** The further properties on the sample worlds *)

Lemma blocked_setup_skips_cleanup_witness :
  let x := processing w_ok f_png fs_blocked in
  exists d,
    (d = INPUT_DIR \/ d = FRAME_DIR \/ d = OUTPUT_DIR) /\
    Path.is_file fs_blocked d = true /\
    res x = Raise (FileExistsError ("[Errno 17] File exists: '" ++ d ++ "'")) /\
    (trace x = [] \/ trace x = [EMkdir INPUT_DIR] \/
     trace x = [EMkdir INPUT_DIR; EMkdir FRAME_DIR]) /\
    (forall q, Path.is_dir fs_blocked q = true -> Path.is_dir (final_fs x) q = true) /\
    (forall q, Path.is_file (final_fs x) q = Path.is_file fs_blocked q) /\
    (d <> INPUT_DIR -> Path.is_dir (final_fs x) INPUT_DIR = true).
Proof.
  apply (blocked_setup_skips_cleanup w_ok f_png cat_png fs_blocked eq_refl eq_refl eq_refl).
  intros (_ & H & _). discriminate H.
Defined.

Lemma checked_tools_and_commands_witness :
  found w_ok (hd "" (gif_cmd w_ok "cat")) = true /\
  found w_exe_only (hd "" (artwork_cmd w_exe_only (make_params w_exe_only f_png cat_png)))
    = false.
Proof.
  split.
  - exact (proj1 (checked_tools_and_commands w_ok (make_params w_ok f_png cat_png) "cat"
                    eq_refl)).
  - apply (proj2 (proj2 (proj2 (checked_tools_and_commands w_exe_only
             (make_params w_exe_only f_png cat_png) "cat" eq_refl)))).
    split; reflexivity.
Defined.

Lemma artifact_names_witness :
  PyStr.split_last "/" (input_path_of w_ok cat_png) = Some (INPUT_DIR, "cat.png") /\
  Path.stem "/" (input_path_of w_ok cat_png) = "cat".
Proof.
  apply (proj2 (proj2 (proj2 (artifact_names w_ok cat_png)))).
  split; [discriminate|reflexivity].
Defined.



Lemma failed_conversion_crashes_handler_witness :
  res (processing w_convert_fails f_gif ∅) = Raise handler_crash /\
  errors (trace (processing w_convert_fails f_gif ∅)) = [].
Proof.
  destruct (failed_conversion_crashes_handler w_convert_fails f_gif cat_png ∅
              (put_file "temp_frames/0002.png" (put_file "temp_frames/0001.png" fs_uploaded))
              (put_file "temp_frames/0002.png" (put_file "temp_frames/0001.png" fs_uploaded))
              1 "" convert_diagnostics eq_refl eq_refl) as (Hr & He & _).
  - apply (list_elem_of_lookup_2 _ 6%nat). vm_compute. reflexivity.
  - vm_compute. reflexivity.
  - discriminate.
  - split; [exact Hr|exact He].
Defined.


Lemma staging_wiped_witness :
  final_fs (processing w_ok f_gif ∅) !! "temp_inputs/cat.png" = None /\
  final_fs (processing w_ok f_gif ∅) !! "temp_frames" = None.
Proof.
  destruct (staging_wiped w_ok sample_exec_keeps_dirs f_gif cat_png ∅
              eq_refl eq_refl eq_refl dirs_free_empty) as (Hgone & _ & Hup).
  split.
  - apply Hup. split; [discriminate|reflexivity].
  - apply Hgone. reflexivity.
Defined.

Lemma frame_cleanup_stops_at_directory_witness :
  exists l1 l2 fs' t,
    Path.glob_png "/" fs_odd_frames FRAME_DIR = (l1 ++ "temp_frames/b.png" :: l2)%list /\
    frame_cleanup w_ok fs_odd_frames
      = (Raise (IsADirectoryError "[Errno 21] Is a directory: 'temp_frames/b.png'"), fs', t).
Proof.
  destruct (frame_cleanup_stops_at_directory w_ok fs_odd_frames)
    as (l1 & p & l2 & fs' & Hl & _ & Hd & Hrun & _).
  - exists "temp_frames/b.png". split; [|reflexivity].
    apply elem_of_glob_png. split; [reflexivity|]. split; [by eexists|reflexivity].
  - assert (p = "temp_frames/b.png") as ->.
    { assert (p ∈ Path.glob_png "/" fs_odd_frames FRAME_DIR) as Hp.
      { change (path_sep w_ok) with "/"%char in Hl. rewrite Hl. apply elem_of_app. right. left. }
      vm_compute in Hp.
      apply elem_of_cons in Hp as [->|Hp]; [discriminate Hd|].
      apply list_elem_of_singleton in Hp. exact Hp. }
    exists l1, l2, fs', (map EUnlink l1). split; [exact Hl|exact Hrun].
Defined.

Lemma unstartable_tool_reported_witness :
  res (processing w_exe_only f_gif ∅) = Ok tt /\
  errors (trace (processing w_exe_only f_gif ∅))
    = ["❌ Unexpected error: [Errno 2] No such file or directory: 'primitive'"].
Proof.
  destruct (unstartable_tool_reported w_exe_only f_gif cat_png ∅ fs_uploaded eq_refl eq_refl)
    as (Hr & He & _).
  - apply (list_elem_of_lookup_2 _ 5%nat). vm_compute. reflexivity.
  - reflexivity.
  - split; [exact Hr|exact He].
Defined.

Lemma setup_adds_only_directories_witness :
  exists fs1,
    setup_directories w_ok fs_frames = (Ok tt, fs1, setup_calls) /\
    fs1 !! "temp_frames/0001.png" = Some (File []).
Proof.
  destruct (setup_adds_only_directories w_ok fs_frames) as (fs1 & Hs & _ & Hk & _).
  - by repeat split.
  - exists fs1. split; [exact Hs|]. by rewrite Hk.
Defined.

Lemma mode_of_select_box_witness : mode_of_option "5=rotatedrect 🔄" = "5".
Proof.
  exact (proj1 (proj2 mode_of_select_box) 5%nat "5=rotatedrect 🔄" eq_refl).
Defined.
